(** * FieldDataProcessor: a shallow embedding of [field_data_processor.py]

    The class [FieldDataProcessor] holds a pandas [DataFrame] and runs four
    steps on it: [ingest_sql_data], [rename_columns], [apply_corrections] and
    [weather_station_mapping], chained by [process].

    The development has three layers:
    - [PyStr]: the part of Python's [str] the class relies on ([strip]);
    - [Pandas]: the fragment of pandas the class calls ([rename], column
      get/set, [Series.abs], [Series.str.strip], [Series.apply],
      [DataFrame.merge] with [how='left']);
    - [FieldDataProcessor]: the methods of the class, written in a small
      state-and-exception monad over the object's attributes. *)

From stdpp Require Import base strings list gmap.
From Stdlib Require Import ZArith Ascii String SpecFloat.

Open Scope Z_scope.
Open Scope string_scope.
Open Scope list_scope.

(** ** Python exceptions and results *)

Inductive exn : Type :=
| KeyError (label : string)
| TypeError
| AttributeError
| IndexError
| MergeError
| ValueError
| ExternalError (msg : string)
| Diverges.

Inductive result (A : Type) : Type :=
| Ok (a : A)
| Raise (e : exn).
Arguments Ok {A} a.
Arguments Raise {A} e.

Definition rbind {A B} (r : result A) (k : A -> result B) : result B :=
  match r with
  | Ok a => k a
  | Raise e => Raise e
  end.

Fixpoint rmapM {A B} (f : A -> result B) (l : list A) : result (list B) :=
  match l with
  | [] => Ok []
  | a :: l' => rbind (f a) (fun b => rbind (rmapM f l') (fun bs => Ok (b :: bs)))
  end.

(** ** Python strings *)

Module PyStr.

(** [str.isspace] on the code points below 256: the ASCII controls 9-13
    and 28-31, the space, NEL (133) and the no-break space (160). A
    character of a [string] stands for the code point of the same number. *)
Definition isspace (c : ascii) : bool :=
  let n := nat_of_ascii c in
  (((9 <=? n)%nat && (n <=? 13)%nat) || ((28 <=? n)%nat && (n <=? 32)%nat)
   || (n =? 133)%nat || (n =? 160)%nat)%bool.

Fixpoint lstrip (s : string) : string :=
  match s with
  | EmptyString => EmptyString
  | String c s' => if isspace c then lstrip s' else s
  end.

Fixpoint rstrip (s : string) : string :=
  match s with
  | EmptyString => EmptyString
  | String c s' =>
      match rstrip s' with
      | EmptyString => if isspace c then EmptyString else String c EmptyString
      | r => String c r
      end
  end.

(** [s.strip()] with no argument. *)
Definition strip (s : string) : string := rstrip (lstrip s).

End PyStr.

(** ** The pandas fragment

    Scope of the model. A frame is taken by value: its row index is the
    default one (rows are known by position) and its labels are strings.
    A column is the list of its cells. A cell is an integer, a float (a
    binary64 number of [SpecFloat], NaN included), a string or [None]; the
    other values pandas holds (booleans, dates, categories, the dedicated
    string dtype) have no counterpart. The dtype of a column is read off
    its cells: integers within 64 bits only make an [int64] column, floats
    only a [float64] column, anything else a column of dtype [object], and
    so does the column without rows, as a query without result rows
    delivers it. The columns on which this reading is the one pandas itself
    makes are singled out further down as [typed]: besides the [int64] and
    [float64] columns, the columns of [None] only and those with a string
    in them. On a column of another make (integers next to floats or to
    [None], integers beyond 64 bits) the functions take each cell for what
    it is, an integer within 64 bits as a numpy [int64], a wider one as a
    Python [int]. [Series.apply] is followed on the values it computes:
    the dtype pandas infers afresh for its result changes no cell of a
    column the string accessor has taken. The functions follow pandas on
    frames whose labels are distinct; a label carried by two columns is
    read as the first of them. *)

Module Pandas.

(** The float of an integer, rounded to nearest, ties to even. *)
Definition float_of_int (z : Z) : spec_float :=
  binary_normalize 53 1024 z 0 false.

Definition nan : spec_float := S754_nan.

#[global] Instance spec_float_eq_dec : EqDecision spec_float.
Proof. solve_decision. Defined.

(** A cell: an integer, a float, a string, or [None]. *)
Inductive value : Type :=
| VNum (z : Z)
| VFloat (f : spec_float)
| VStr (s : string)
| VNull.

#[global] Instance value_eq_dec : EqDecision value.
Proof. solve_decision. Defined.

Abbreviation Series := (list value).
(** A frame is the list of its columns, in order, each with its label. *)
Abbreviation DataFrame := (list (string * list value)).

Definition columns (d : DataFrame) : list string := d.*1.

(** Number of rows: the length of the columns (all equal in a
    well-formed frame). *)
Definition nrows (d : DataFrame) : nat :=
  match d with
  | [] => O
  | (_, s) :: _ => List.length s
  end.

(** Well-formed frames: distinct labels, rectangular. *)
Definition wf_frame (d : DataFrame) : Prop :=
  NoDup (columns d) /\ Forall (fun c => List.length c.2 = nrows d) d.

(** *** Kinds of cells and of columns *)

Definition int64_min : Z := - 2 ^ 63.
Definition int64_max : Z := 2 ^ 63 - 1.

Definition is_num (v : value) : bool :=
  match v with VNum _ => true | _ => false end.
Definition is_float (v : value) : bool :=
  match v with VFloat _ => true | _ => false end.
Definition is_str (v : value) : bool :=
  match v with VStr _ => true | _ => false end.
Definition is_none (v : value) : bool :=
  match v with VNull => true | _ => false end.
(** A number: an integer or a float (NaN is a float). *)
Definition is_number (v : value) : bool := (is_num v || is_float v)%bool.
Definition is_int64 (v : value) : bool :=
  match v with
  | VNum z => ((int64_min <=? z)%Z && (z <=? int64_max)%Z)%bool
  | _ => false
  end.

Inductive dtype : Type := int64 | float64 | object.

#[global] Instance dtype_eq_dec : EqDecision dtype.
Proof. solve_decision. Defined.

Definition dtype_of (s : Series) : dtype :=
  match s with
  | [] => object
  | _ :: _ =>
      if forallb is_int64 s then int64
      else if forallb is_float s then float64
      else object
  end.

(** *** Columns by label *)

(** [df.rename(columns=mapper)]: every label found in [mapper] is
    replaced, labels absent from the frame are ignored (the default
    [errors='ignore']), the data is untouched. *)
Definition rename (mapper : gmap string string) (d : DataFrame) : DataFrame :=
  (fun c => (default c.1 (mapper !! c.1), c.2)) <$> d.

(** [df[label]]. *)
Fixpoint getitem (label : string) (d : DataFrame) : result Series :=
  match d with
  | [] => Raise (KeyError label)
  | (n, s) :: d' => if decide (n = label) then Ok s else getitem label d'
  end.

(** [df[label] = s]: replaces the column in place when the label exists,
    appends a new last column otherwise. *)
Definition setitem (label : string) (s : Series) (d : DataFrame) : DataFrame :=
  if decide (label ∈ columns d)
  then (fun c => (c.1, if decide (c.1 = label) then s else c.2)) <$> d
  else d ++ [(label, s)].

(** *** Column transforms *)

(** [Series.abs()], cell by cell. An [int64] has its absolute value within
    64 bits: the smallest one, [-2^63], is its own absolute value. A float
    loses its sign, NaN stays NaN. A string and [None] have no absolute
    value. *)
Definition abs_value (v : value) : result value :=
  match v with
  | VNum z => Ok (VNum (if decide (z = int64_min) then z else Z.abs z))
  | VFloat f => Ok (VFloat (SFabs f))
  | VStr _ => Raise TypeError
  | VNull => Raise TypeError
  end.

Definition abs (s : Series) : result Series := rmapM abs_value s.

(** [Series.str]: the accessor is for columns of dtype [object] that hold
    strings. It is taken on a column with a string in it, whatever its
    other cells, and on a column of [None] only, the column without rows
    included. On any other column it is refused with [AttributeError]:
    without a string and with a number or NaN in it, a column is numeric
    ([int64], or [float64], which is what pandas makes of floats and
    [None], NaN only included) or an [object] column of numbers. *)
Definition str_takes (s : Series) : bool :=
  (existsb is_str s || forallb is_none s)%bool.

Definition str (s : Series) : result Series :=
  if str_takes s then Ok s else Raise AttributeError.

(** [Series.str.strip()] on a cell of an accepted column: a string is
    stripped, a missing value ([None], NaN) is left as it is, any other
    cell comes out as NaN. *)
Definition strip_value (v : value) : value :=
  match v with
  | VStr s => VStr (PyStr.strip s)
  | VNull => VNull
  | _ => VFloat nan
  end.

Definition str_strip (s : Series) : result Series :=
  rbind (str s) (fun s' => Ok (strip_value <$> s')).

(** [Series.apply(f)]. *)
Definition apply (f : value -> value) (s : Series) : Series := f <$> s.

(** [df[[l1, ..., ln]]]. *)
Definition select (labels : list string) (d : DataFrame) : result DataFrame :=
  rmapM (fun l => rbind (getitem l d) (fun s => Ok (l, s))) labels.

(** *** [left.merge(right, on=key, how='left')] *)

(** Keys are compared by value: an integer and a float of the same value
    are one key, as are the two zeros, and missing keys match each other.
    [norm_key] picks one cell per key. *)
Definition norm_key (v : value) : value :=
  match v with
  | VFloat S754_nan => VNull
  | VFloat (S754_zero _) => VNum 0
  | VFloat (S754_finite sg m e) =>
      let z := if sg then Z.neg m else Z.pos m in
      if (0 <=? e)%Z then VNum (z * 2 ^ e)
      else if (Z.pos m mod 2 ^ (- e) =? 0)%Z then VNum (z / 2 ^ (- e))
      else v
  | _ => v
  end.

(** The check of the key dtypes: joining a numeric key column with a key
    column of dtype [object] that holds no integer (strings, say) is
    refused with [ValueError]. The check is skipped when one side only has
    no rows. *)
Definition numeric_dtype (s : Series) : bool :=
  match dtype_of s with object => false | _ => true end.
Definition string_like (s : Series) : bool :=
  match dtype_of s with object => negb (existsb is_num s) | _ => false end.
Definition key_mismatch (lkeys rkeys : Series) : bool :=
  match lkeys, rkeys with
  | _ :: _, _ :: _ =>
      ((numeric_dtype lkeys && string_like rkeys)
       || (string_like lkeys && numeric_dtype rkeys))%bool
  | _, _ => false
  end.

(** Positions of the right rows whose key is [k]. *)
Fixpoint matches (k : value) (rkeys : Series) (j : nat) : list nat :=
  match rkeys with
  | [] => []
  | k' :: rkeys' =>
      if decide (k' = k) then j :: matches k rkeys' (S j)
      else matches k rkeys' (S j)
  end.

(** The join indexer: for every left row, in order, one pair per matching
    right row, or a single pair without right row. *)
Fixpoint left_indexer (lkeys rkeys : Series) (i : nat)
  : list (nat * option nat) :=
  match lkeys with
  | [] => []
  | k :: lkeys' =>
      match matches k rkeys O with
      | [] => [(i, None)]
      | js => (fun j => (i, Some j)) <$> js
      end ++ left_indexer lkeys' rkeys (S i)
  end.

Definition take_left (ix : list (nat * option nat)) (s : Series) : Series :=
  (fun p => default VNull (s !! p.1)) <$> ix.

(** The cells of a right column along the indexer, NaN where a left row has
    no right row. *)
Definition gather (ix : list (nat * option nat)) (s : Series) : Series :=
  (fun p => match p.2 with
            | Some j => default VNull (s !! j)
            | None => VFloat nan
            end) <$> ix.

Definition unmatched (ix : list (nat * option nat)) : bool :=
  existsb (fun p => match p.2 with None => true | Some _ => false end) ix.

Definition to_float (v : value) : value :=
  match v with
  | VNum z => VFloat (float_of_int z)
  | _ => v
  end.

(** An [int64] column cannot hold NaN: when some left row has no right
    row, the column comes out as [float64], every integer converted. *)
Definition take_right (ix : list (nat * option nat)) (s : Series) : Series :=
  if (unmatched ix && bool_decide (dtype_of s = int64))%bool
  then to_float <$> gather ix s
  else gather ix s.

(** Suffixes [_x] / [_y] for the labels other than the key that both
    frames carry. *)
Definition suffixed (on : string) (mine other : list string) (sfx : string)
    (n : string) : string :=
  if decide (n <> on /\ n ∈ mine /\ n ∈ other) then n +:+ sfx else n.

Definition merge_left (l r : DataFrame) (on : string) : result DataFrame :=
  rbind (getitem on l) (fun lk =>
  rbind (getitem on r) (fun rk =>
    if key_mismatch lk rk then Raise ValueError
    else
      let ix := left_indexer (norm_key <$> lk) (norm_key <$> rk) O in
      let others := filter (fun c => c.1 <> on) r in
      let lcols :=
        (fun c => (suffixed on (columns l) (columns r) "_x" c.1,
                   take_left ix c.2)) <$> l in
      let rcols :=
        (fun c => (suffixed on (columns r) (columns l) "_y" c.1,
                   take_right ix c.2)) <$> others in
      (* a suffix must not create a label twice, on one side or across
         the two sides *)
      if decide ((NoDup (columns l) -> NoDup (columns lcols))
                 /\ (NoDup (columns r) -> NoDup (columns rcols))
                 /\ Forall (fun n => n ∈ columns others -> n ∈ columns l)
                           (columns lcols)
                 /\ Forall (fun n => n ∈ columns l -> n ∈ columns others)
                           (columns rcols))
      then Ok (lcols ++ rcols)
      else Raise MergeError)).

End Pandas.

(** ** The class *)

Module FieldDataProcessor.
Import Pandas.

(** What the object does that can be seen from outside: the messages handed
    to [self.logger.info] and the calls to the three collaborators of
    [data_ingestion]. *)
Inductive event : Type :=
| LogInfo (msg : string)
| CallCreateDbEngine (path : string)
| CallQueryData (sql : string)
| CallReadFromWebCSV (url : string).

(** The attributes of [self]. [columns_to_rename] is a dict whose insertion
    order matters (its first key and first value are read), kept as the list
    of its items; [values_to_rename] is only ever looked up. [trace] is the
    history of observable events, oldest first. *)
Record Processor (Engine : Type) : Type := mkProcessor {
  db_path : string;
  sql_query : string;
  columns_to_rename : list (string * string);
  values_to_rename : gmap string string;
  weather_map_data : string;
  df : option DataFrame;
  engine : option Engine;
  trace : list event
}.
Arguments mkProcessor {Engine}.
Arguments db_path {Engine}.
Arguments sql_query {Engine}.
Arguments columns_to_rename {Engine}.
Arguments values_to_rename {Engine}.
Arguments weather_map_data {Engine}.
Arguments df {Engine}.
Arguments engine {Engine}.
Arguments trace {Engine}.

(** The configuration dictionary handed to [__init__]. *)
Record config_params : Type := mkConfig {
  cfg_db_path : string;
  cfg_sql_query : string;
  cfg_columns_to_rename : list (string * string);
  cfg_values_to_rename : gmap string string;
  cfg_weather_mapping_csv : string
}.

(** [__init__]: the configuration is copied, frame and engine are [None].
    Of the logger only the messages it is handed are kept (in [trace]); its
    level and handlers play no part in what follows. *)
Definition init {Engine} (c : config_params) : Processor Engine :=
  mkProcessor (cfg_db_path c) (cfg_sql_query c) (cfg_columns_to_rename c)
              (cfg_values_to_rename c) (cfg_weather_mapping_csv c)
              None None [].

(** Attribute assignment. *)
Definition with_df {Engine} (d : option DataFrame) (self : Processor Engine)
  : Processor Engine :=
  mkProcessor (db_path self) (sql_query self) (columns_to_rename self)
              (values_to_rename self) (weather_map_data self)
              d (engine self) (trace self).

Definition with_engine {Engine} (e : option Engine) (self : Processor Engine)
  : Processor Engine :=
  mkProcessor (db_path self) (sql_query self) (columns_to_rename self)
              (values_to_rename self) (weather_map_data self)
              (df self) e (trace self).

Definition with_trace {Engine} (t : list event) (self : Processor Engine)
  : Processor Engine :=
  mkProcessor (db_path self) (sql_query self) (columns_to_rename self)
              (values_to_rename self) (weather_map_data self)
              (df self) (engine self) t.

Section Methods.
Context {Engine : Type}.

(** The collaborators imported from [data_ingestion]; each either returns
    or raises. *)
Variable create_db_engine : string -> result Engine.
Variable query_data : Engine -> string -> result DataFrame.
Variable read_from_web_CSV : string -> result DataFrame.

(** *** Methods as state transformers that may raise *)

Definition M (A : Type) : Type :=
  Processor Engine -> Processor Engine * result A.

Definition ret {A} (a : A) : M A := fun self => (self, Ok a).

Definition bind {A B} (m : M A) (k : A -> M B) : M B :=
  fun self =>
    match m self with
    | (self', Ok a) => k a self'
    | (self', Raise e) => (self', Raise e)
    end.

Definition lift {A} (r : result A) : M A := fun self => (self, r).

Definition attr {A} (f : Processor Engine -> A) : M A :=
  fun self => (self, Ok (f self)).

Definition emit (ev : event) : M unit :=
  fun self => (with_trace (trace self ++ [ev]) self, Ok tt).

(** [self.df = d], also the outcome of an update of the frame in place. *)
Definition set_df (d : DataFrame) : M unit :=
  fun self => (with_df (Some d) self, Ok tt).

Definition set_engine (e : Engine) : M unit :=
  fun self => (with_engine (Some e) self, Ok tt).

(** Reading [self.df] for use as a frame; on [None] the use raises [e]. *)
Definition get_df (e : exn) : M DataFrame :=
  fun self =>
    match df self with
    | Some d => (self, Ok d)
    | None => (self, Raise e)
    end.

Definition logger_info (msg : string) : M unit := emit (LogInfo msg).

Notation "'let*' x ':=' m 'in' k" := (bind m (fun x => k))
  (at level 10, x name, m at level 100, k at level 200, only parsing).
Notation "m '>>' k" := (bind m (fun _ => k))
  (at level 100, k at level 200, right associativity, only parsing).

(** [list(d.keys())[0]], [list(d.values())[0]]. *)
Definition first {A} (l : list A) : result A :=
  match l with
  | [] => Raise IndexError
  | a :: _ => Ok a
  end.

(** [dict.get(key, default)] on a cell; the keys of the dict are strings. *)
Definition dict_get (d : gmap string string) (key dflt : value) : value :=
  match key with
  | VStr k => match d !! k with Some v => VStr v | None => dflt end
  | _ => dflt
  end.

(** The loop [while temp_name in self.df.columns: temp_name += "_"].
    [fuel] bounds the number of tests of the condition. *)
Fixpoint while_temp_name (fuel : nat) (cols : list string) (temp_name : string)
  : option string :=
  match fuel with
  | O => None
  | S fuel' =>
      if decide (temp_name ∈ cols)
      then while_temp_name fuel' cols (temp_name +:+ "_")
      else Some temp_name
  end.

(** The placeholder for a frame with labels [cols]: one test more than there
    are labels is always enough (see [while_temp_name_total]). *)
Definition temp_name_for (cols : list string) : result string :=
  match while_temp_name (S (List.length cols)) cols "__temp_name_for_swap__" with
  | Some t => Ok t
  | None => Raise Diverges
  end.

(** [ingest_sql_data], lines 85-88: the engine is stored before the query
    is run, the frame replaces whatever [self.df] held. *)
Definition ingest_sql_data : M DataFrame :=
  let* path := attr db_path in
  emit (CallCreateDbEngine path) >>
  let* e := lift (create_db_engine path) in
  set_engine e >>
  let* sql := attr sql_query in
  emit (CallQueryData sql) >>
  let* d := lift (query_data e sql) in
  set_df d >>
  logger_info "Sucessfully loaded data." >>
  ret d.

(** [rename_columns], lines 103-113: first key and first value of the dict,
    the log line, the search of a placeholder, then the two [rename] calls,
    the first with the dict [{column1: temp_name, column2: column1}] (a
    later item of a dict display overrides an earlier one with the same
    key), the second with [{temp_name: column2}]. *)
Definition rename_columns : M unit :=
  let* c2r := attr columns_to_rename in
  let* column1 := lift (first c2r.*1) in
  let* column2 := lift (first c2r.*2) in
  logger_info ("Swapped columns: " +:+ column1 +:+ " with " +:+ column2) >>
  let* d := get_df AttributeError in
  let* temp_name := lift (temp_name_for (columns d)) in
  set_df (rename (<[column2 := column1]> {[column1 := temp_name]}) d) >>
  let* d' := get_df AttributeError in
  set_df (rename {[temp_name := column2]} d').

(** [apply_corrections], lines 133-135: three assignments to columns of
    [self.df], each taking effect on the frame before the next line runs. *)
Definition apply_corrections (column_name abs_column : string) : M unit :=
  let* d := get_df TypeError in
  let* s := lift (getitem abs_column d) in
  let* a := lift (abs s) in
  set_df (setitem abs_column a d) >>
  let* d := get_df TypeError in
  let* s := lift (getitem column_name d) in
  let* t := lift (str_strip s) in
  set_df (setitem column_name t d) >>
  let* d := get_df TypeError in
  let* s := lift (getitem column_name d) in
  let* v2r := attr values_to_rename in
  set_df (setitem column_name (apply (fun crop => dict_get v2r crop crop) s) d).

(** [weather_station_mapping], lines 148-149: the lookup table is fetched,
    cut down to two columns and joined to the frame. *)
Definition weather_station_mapping : M unit :=
  let* url := attr weather_map_data in
  emit (CallReadFromWebCSV url) >>
  let* wsd := lift (read_from_web_CSV url) in
  let* d := get_df AttributeError in
  let* sel := lift (select ["Field_ID"; "Weather_station"] wsd) in
  let* merged := lift (merge_left d sel "Field_ID") in
  set_df merged.

(** [process], lines 170-174; [apply_corrections] with its default
    arguments. *)
Definition process : M unit :=
  ingest_sql_data >>
  rename_columns >>
  apply_corrections "Crop_type" "Elevation" >>
  weather_station_mapping.

End Methods.

End FieldDataProcessor.

(** ** Vocabulary of the statements *)

Module Statements.
Import Pandas FieldDataProcessor.

(** [k] underscores. *)
Fixpoint underscores (k : nat) : string :=
  match k with
  | O => ""
  | S k' => "_" +:+ underscores k'
  end.

(** Exchange of the labels [c1] and [c2]. *)
Definition swap_label (c1 c2 n : string) : string :=
  if decide (n = c1) then c2 else if decide (n = c2) then c1 else n.

(** What the two [rename] calls of [rename_columns] do to a label of the
    frame, with [t] the placeholder: this is the composition of the two
    mappers, read on a label different from [t]. *)
Definition relabel (c1 c2 t n : string) : string :=
  if decide (n = c2) then (if decide (c1 = t) then c2 else c1)
  else if decide (n = c1) then c2 else n.

(** A column of numbers: every cell is an integer or a float. These are
    the columns [Series.abs] accepts. *)
Definition numbers (s : Series) : Prop :=
  Forall (fun v => is_number v = true) s.

(** An [int64] column: integers within 64 bits. *)
Definition int64_valued (s : Series) : Prop :=
  Forall (fun v => is_int64 v = true) s.

(** A [float64] column: floats, NaN included. *)
Definition float_valued (s : Series) : Prop :=
  Forall (fun v => is_float v = true) s.

(** A numeric column: an [int64] or a [float64] column. *)
Definition numeric (s : Series) : Prop := int64_valued s \/ float_valued s.

(** A column as pandas builds it from its cells: integers within 64 bits
    only, floats only, [None] only, or a column with a string in it, which
    holds its other cells as they are. Such a column has the dtype that
    [dtype_of] reads off it however it was made. *)
Definition typed (s : Series) : bool :=
  (forallb is_int64 s || forallb is_float s || forallb is_none s
   || existsb is_str s)%bool.

(** A string-valued column: every cell is a string. *)
Definition string_valued (s : Series) : Prop :=
  Forall (fun v => is_str v = true) s.

(** What [Series.abs] does to a cell it accepts. *)
Definition abs_cell (v : value) : value :=
  match v with
  | VNum z => VNum (if decide (z = int64_min) then z else Z.abs z)
  | VFloat f => VFloat (SFabs f)
  | _ => v
  end.


(** The lambda of [apply_corrections]. *)
Definition renamed_value (v2r : gmap string string) (crop : value) : value :=
  dict_get v2r crop crop.

(** Strip, then substitute: what [apply_corrections] does to a cell of the
    categorical column. *)
Definition crop_cell (v2r : gmap string string) (v : value) : value :=
  renamed_value v2r (strip_value v).

(** Frame [d'] has the columns of [d], label by label and in the same
    places, each with as many rows as before, and the cells of every column
    whose label is not in [touched] are those of [d]. *)
Definition kept_outside (touched : list string) (d d' : DataFrame) : Prop :=
  List.length d' = List.length d
  /\ forall i c, d !! i = Some c ->
       exists c', d' !! i = Some c'
                  /\ c'.1 = c.1
                  /\ List.length c'.2 = List.length c.2
                  /\ (c.1 ∉ touched -> c' = c).

(** Every cell is a string found among the values of the dict. *)
Definition in_range (v2r : gmap string string) (s : Series) : Prop :=
  Forall (fun v => exists k y, v2r !! k = Some y /\ v = VStr y) s.

(** The values of the dict are left alone by the correction: already
    stripped, and not keys mapped elsewhere. *)
Definition range_stable (v2r : gmap string string) : Prop :=
  forall k y, v2r !! k = Some y ->
    PyStr.strip y = y /\ (v2r !! y = None \/ v2r !! y = Some y).

(** Key columns of one kind: [int64] on both sides, or strings on both
    sides. *)
Definition same_kind (lkeys rkeys : Series) : Prop :=
  (int64_valued lkeys /\ int64_valued rkeys)
  \/ (string_valued lkeys /\ string_valued rkeys).

(** Some left key is no lookup key. *)
Definition some_unmatched (lkeys rkeys : Series) : bool :=
  existsb (fun k => bool_decide (k ∉ rkeys)) lkeys.


(** The message logged by [rename_columns]. *)
Definition swapped_message (c1 c2 : string) : string :=
  "Swapped columns: " +:+ c1 +:+ " with " +:+ c2.

End Statements.

(** ** Sample data *)

Module Examples.
Import Pandas FieldDataProcessor.

(** A survey table in which the labels of the yield and the crop columns are
    exchanged, one crop is misspelt and padded, one elevation is negative. *)
Definition survey : DataFrame :=
  [ ("Field_ID", [VNum 1; VNum 2; VNum 5]);
    ("Elevation", [VNum (-120); VNum 35; VNum 0]);
    ("Annual_yield", [VStr "maize "; VStr "cassaval"; VStr " tea"]);
    ("Crop_type", [VNum 7; VNum 3; VNum 4]) ].

(** The same table with the labels in place. *)
Definition survey_renamed : DataFrame :=
  [ ("Field_ID", [VNum 1; VNum 2; VNum 5]);
    ("Elevation", [VNum (-120); VNum 35; VNum 0]);
    ("Crop_type", [VStr "maize "; VStr "cassaval"; VStr " tea"]);
    ("Annual_yield", [VNum 7; VNum 3; VNum 4]) ].

(** The weather lookup table: field 5 has no station. *)
Definition stations : DataFrame :=
  [ ("Field_ID", [VNum 2; VNum 1; VNum 9]);
    ("Weather_station", [VNum 4; VNum 0; VNum 3]);
    ("Comment", [VStr "north"; VFloat nan; VStr "south"]) ].

Definition params : config_params :=
  mkConfig "sqlite:///farm.db" "SELECT * FROM fields"
           [("Annual_yield", "Crop_type")]
           (<["cassaval" := "cassava"]> {["maize" := "Maize"]})
           "https://example.org/stations.csv".

(** Both entries of the exchange, as a configuration may spell it. *)
Definition params_two_entries : config_params :=
  mkConfig "sqlite:///farm.db" "SELECT * FROM fields"
           [("Annual_yield", "Crop_type"); ("Crop_type", "Annual_yield")]
           (<["cassaval" := "cassava"]> {["maize" := "Maize"]})
           "https://example.org/stations.csv".

(** A configuration that names a column the table does not have. *)
Definition params_missing : config_params :=
  mkConfig "sqlite:///farm.db" "SELECT * FROM fields"
           [("Yield", "Crop_type")]
           (<["cassaval" := "cassava"]> {["maize" := "Maize"]})
           "https://example.org/stations.csv".

(** A dict of corrections in which a corrected spelling is itself a key. *)
Definition params_chain : config_params :=
  mkConfig "sqlite:///farm.db" "SELECT * FROM fields"
           [("Annual_yield", "Crop_type")]
           (<["tea" := "Tea"]> {["teaa" := "tea"]})
           "https://example.org/stations.csv".

Definition tea_fields : DataFrame :=
  [ ("Field_ID", [VNum 1]);
    ("Elevation", [VNum (-3)]);
    ("Crop_type", [VStr "teaa"]) ].

(** A load without crop column. *)
Definition no_crop : DataFrame :=
  [ ("Field_ID", [VNum 1; VNum 2]);
    ("Elevation", [VNum (-7); VNum 12]);
    ("Soil_type", [VStr "Loamy"; VStr "Sandy"]) ].







(** An object that holds frame [d]. *)
Definition holding (c : config_params) (d : DataFrame) : Processor unit :=
  with_df (Some d) (init c).

(** Collaborators that succeed. *)
Definition engine_ok (path : string) : result unit := Ok tt.
Definition query_returns (d : DataFrame) (e : unit) (sql : string)
  : result DataFrame := Ok d.
Definition csv_returns (d : DataFrame) (url : string) : result DataFrame := Ok d.
(** Collaborators that fail. *)
Definition engine_fails (path : string) : result unit :=
  Raise (ExternalError "unable to open database file").
Definition query_fails (e : unit) (sql : string) : result DataFrame :=
  Raise (ExternalError "no such table").
Definition csv_fails (url : string) : result DataFrame :=
  Raise (ExternalError "HTTP Error 404").

End Examples.

(** ** The logger

    [initialize_logging] configures the logger that
    [logging.getLogger(__name__ + ".FieldDataProcessor")] hands out: one
    object per name, shared by every instance of the class. Of Python's
    [logging] the model keeps what the method touches (level, [propagate],
    [disabled], the handler list) and what [Logger.info] does with it; the
    module-wide [logging.disable] threshold is taken at its default and
    filters are not represented. *)

Module Logging.
Import FieldDataProcessor.

Definition NOTSET : nat := 0.
Definition DEBUG : nat := 10.
Definition INFO : nat := 20.

Record Handler : Type := mkHandler {
  h_stream : string;
  h_level : nat;
  h_format : option string
}.

Record Logger : Type := mkLogger {
  level : nat;
  propagate : bool;
  disabled : bool;
  handlers : list Handler
}.

(** The logger [getLogger] creates for a name it has not seen. *)
Definition new_logger : Logger := mkLogger NOTSET true false [].

(** A string as the list of its code points. *)
Fixpoint code_points (s : string) : list N :=
  match s with
  | EmptyString => []
  | String c s' => N_of_ascii c :: code_points s'
  end.

(** [str.upper] on a character below 256. The capitals of the micro sign
    and of y with diaeresis lie above 255, the capital of sharp s is two
    letters: hence code points, not characters. *)
Definition upper_char (c : ascii) : list N :=
  let n := N_of_ascii c in
  if ((97 <=? n) && (n <=? 122))%N then [(n - 32)%N]
  else if (n =? 181)%N then [924%N]
  else if (n =? 223)%N then [83%N; 83%N]
  else if (((224 <=? n) && (n <=? 246)) || ((248 <=? n) && (n <=? 254)))%N
       then [(n - 32)%N]
  else if (n =? 255)%N then [376%N]
  else [n].

Fixpoint upper (s : string) : list N :=
  match s with
  | EmptyString => []
  | String c s' => upper_char c ++ upper s'
  end.

(** The handler the method builds: a [StreamHandler] (standard error, level
    [NOTSET]) with the formatter of line 66. *)
Definition console_handler : Handler :=
  mkHandler "stderr" NOTSET
            (Some "%(asctime)s - %(name)s - %(levelname)s - %(message)s").

(** The level chosen by lines 51-59; [None] stands for the branch that
    disables the logger and returns. *)
Definition chosen_level (logging_level : string) : option nat :=
  if decide (upper logging_level = code_points "DEBUG") then Some DEBUG
  else if decide (upper logging_level = code_points "INFO") then Some INFO
  else if decide (upper logging_level = code_points "NONE") then None
  else Some INFO.

(** [initialize_logging], lines 46-68, as a transformer of the shared
    logger. *)
Definition initialize_logging (logging_level : string) (lg : Logger) : Logger :=
  let lg := mkLogger (level lg) false (disabled lg) (handlers lg) in
  match chosen_level logging_level with
  | None => mkLogger (level lg) (propagate lg) true (handlers lg)
  | Some log_level =>
      let lg := mkLogger log_level (propagate lg) (disabled lg) (handlers lg) in
      match handlers lg with
      | [] => mkLogger (level lg) (propagate lg) (disabled lg)
                       (handlers lg ++ [console_handler])
      | _ :: _ => lg
      end
  end.

(** [__init__]: the attributes of the new object and the logger as the
    call leaves it. *)
Definition construct {Engine} (c : config_params) (logging_level : string)
    (lg : Logger) : Processor Engine * Logger :=
  (init c, initialize_logging logging_level lg).

(** The logger after the objects of a program have been built, one level
    string per object, first built first. *)
Definition after_constructions (levels : list string) (lg : Logger) : Logger :=
  foldl (fun l s => initialize_logging s l) lg levels.

Section Hierarchy.

(** What the logger has from its ancestors: their effective level, and the
    handlers a record reaches when it propagates. *)
Variable parent_level : nat.
Variable parent_handlers : list Handler.

Definition getEffectiveLevel (lg : Logger) : nat :=
  if decide (level lg = NOTSET) then parent_level else level lg.

Definition isEnabledFor (lvl : nat) (lg : Logger) : bool :=
  if disabled lg then false
  else bool_decide (getEffectiveLevel lg <= lvl)%nat.

(** The handlers that emit a record of level [lvl], in order. *)
Definition callHandlers (lvl : nat) (lg : Logger) : list Handler :=
  filter (fun h => (h_level h <= lvl)%nat)
         (handlers lg ++ if propagate lg then parent_handlers else []).

(** [logger.info(msg)]: the lines written, each with its handler. *)
Definition info (msg : string) (lg : Logger) : list (Handler * string) :=
  if isEnabledFor INFO lg
  then (fun h => (h, msg)) <$> callHandlers INFO lg
  else [].

(** The lines written for a history of the object. *)
Definition written (lg : Logger) (tr : list event) : list (Handler * string) :=
  mjoin ((fun ev => match ev with
                    | LogInfo msg => info msg lg
                    | _ => []
                    end) <$> tr).

End Hierarchy.

End Logging.

(** ** Further vocabulary *)

Module MoreStatements.
Import Pandas FieldDataProcessor Statements.

(** The name the placeholder search starts from. *)
Definition temp_base : string := "__temp_name_for_swap__".

(** Number of lookup rows whose key is [k]. *)
Definition key_count (k : value) (rkeys : Series) : nat :=
  List.length (filter (fun k' => k' = k) rkeys).

(** Number of output rows a left row with key [k] gives. *)
Definition copies (rkeys : Series) (k : value) : nat :=
  Nat.max 1 (key_count k rkeys).

(** A left column after the join: each cell repeated as often as its row. *)
Definition fanned (lkeys rkeys col : Series) : Series :=
  mjoin (zip_with (fun k v => replicate (copies rkeys k) v) lkeys col).

(** The cells of [col] on the lookup rows whose key is [k], in lookup
    order. *)
Fixpoint matching_cells (k : value) (rkeys col : Series) : Series :=
  match rkeys, col with
  | k' :: rkeys', v :: col' =>
      if decide (k' = k) then v :: matching_cells k rkeys' col'
      else matching_cells k rkeys' col'
  | _, _ => []
  end.

(** The cells of the joined column: per left row the matching cells, or
    one NaN. *)
Definition joined_cells (lkeys rkeys col : Series) : Series :=
  mjoin ((fun k => match matching_cells k rkeys col with
                   | [] => [VFloat nan]
                   | vs => vs
                   end) <$> lkeys).

(** The joined column: these cells, as floats when the lookup column is
    [int64] and some left row has no match. *)
Definition joined (lkeys rkeys col : Series) : Series :=
  if (some_unmatched lkeys rkeys && bool_decide (dtype_of col = int64))%bool
  then to_float <$> joined_cells lkeys rkeys col
  else joined_cells lkeys rkeys col.

(** Two objects with the same configuration. *)
Definition same_config {Engine} (s s' : Processor Engine) : Prop :=
  db_path s = db_path s'
  /\ sql_query s = sql_query s'
  /\ columns_to_rename s = columns_to_rename s'
  /\ values_to_rename s = values_to_rename s'
  /\ weather_map_data s = weather_map_data s'.

(** Two objects that differ in their history only. *)
Definition alike {Engine} (s s' : Processor Engine) : Prop :=
  same_config s s' /\ df s = df s' /\ engine s = engine s'.

End MoreStatements.

(** ** Further sample data *)

Module MoreExamples.
Import Pandas FieldDataProcessor Examples.

(** A lookup table that lists field 1 twice. *)
Definition stations_twice : DataFrame :=
  [ ("Field_ID", [VNum 2; VNum 1; VNum 1]);
    ("Weather_station", [VNum 4; VNum 0; VNum 3]) ].

(** A load in which no elevation was read. *)
Definition unread_fields : DataFrame :=
  [ ("Field_ID", [VNum 1; VNum 2]);
    ("Elevation", [VNull; VNull]);
    ("Crop_type", [VStr " tea"; VStr "maize"]) ].

(** A load whose crops are all missing: a float column of NaN. *)
Definition uncropped_fields : DataFrame :=
  [ ("Field_ID", [VNum 1; VNum 2]);
    ("Elevation", [VNum 3; VNum (-4)]);
    ("Crop_type", [VFloat nan; VFloat nan]) ].

(** A frame that has a [Weather_station] column and a column labelled as
    the join would label the lookup's. *)
Definition survey_suffixed : DataFrame :=
  [ ("Field_ID", [VNum 1; VNum 2; VNum 5]);
    ("Weather_station", [VNum 8; VNum 8; VNum 8]);
    ("Weather_station_y", [VNum 6; VNum 6; VNum 6]) ].

(** A configuration whose entry maps a label to itself. *)
Definition params_self : config_params :=
  mkConfig "sqlite:///farm.db" "SELECT * FROM fields"
           [("Elevation", "Elevation")]
           (<["cassaval" := "cassava"]> {["maize" := "Maize"]})
           "https://example.org/stations.csv".

End MoreExamples.

(** * Properties *)

(** ** Strings *)

(** Decidable closed goals are settled by evaluation. *)
Ltac by_compute := refine (bool_decide_unpack _ _); vm_compute; exact I.

Module PyStrFacts.
Import Statements.

Lemma append_assoc (a b c : string) : (a +:+ b) +:+ c = a +:+ (b +:+ c).
Proof.
  induction a as [|x a IH]; [reflexivity|].
  change (String x ((a +:+ b) +:+ c) = String x (a +:+ (b +:+ c))).
  by rewrite IH.
Qed.

Lemma length_append (a b : string) :
  String.length (a +:+ b) = (String.length a + String.length b)%nat.
Proof.
  induction a as [|x a IH]; [reflexivity|].
  change (S (String.length (a +:+ b)) = S (String.length a + String.length b)).
  by rewrite IH.
Qed.

Lemma length_underscores k : String.length (underscores k) = k.
Proof.
  induction k as [|k IH]; [reflexivity|].
  change (S (String.length (underscores k)) = S k). by rewrite IH.
Qed.

Lemma append_underscores_inj (t : string) : Inj (=) (=) (fun k => t +:+ underscores k).
Proof.
  intros j k H. apply (f_equal String.length) in H.
  rewrite !length_append, !length_underscores in H. lia.
Qed.

Lemma append_underscores_S (t : string) k :
  (t +:+ "_") +:+ underscores k = t +:+ underscores (S k).
Proof. by rewrite append_assoc. Qed.

Lemma append_empty_r (t : string) : t +:+ "" = t.
Proof.
  induction t as [|x t IH]; [reflexivity|].
  change (String x (t +:+ "") = String x t). by rewrite IH.
Qed.

(** Stripping on the right leaves a leading non-space character in place. *)
Lemma rstrip_cons_nonspace c s :
  PyStr.isspace c = false -> exists r, PyStr.rstrip (String c s) = String c r.
Proof.
  intros Hc. simpl. destruct (PyStr.rstrip s); rewrite ?Hc; eauto.
Qed.

Lemma lstrip_head s :
  PyStr.lstrip s = ""
  \/ exists c r, PyStr.lstrip s = String c r /\ PyStr.isspace c = false.
Proof.
  induction s as [|c s IH]; [by left|]. simpl.
  destruct (PyStr.isspace c) eqn:Hc; [done|]. right. eauto.
Qed.

Lemma rstrip_idemp s : PyStr.rstrip (PyStr.rstrip s) = PyStr.rstrip s.
Proof.
  induction s as [|c s IH]; [done|]. simpl.
  destruct (PyStr.rstrip s) as [|c' r] eqn:Hr.
  - destruct (PyStr.isspace c) eqn:Hc; [done|]. simpl. by rewrite Hc.
  - change (PyStr.rstrip (String c (String c' r)))
      with (match PyStr.rstrip (String c' r) with
            | EmptyString =>
                if PyStr.isspace c then EmptyString else String c EmptyString
            | r0 => String c r0
            end).
    by rewrite IH.
Qed.

(** [strip] is idempotent. *)
Lemma strip_idemp s : PyStr.strip (PyStr.strip s) = PyStr.strip s.
Proof.
  unfold PyStr.strip.
  destruct (lstrip_head s) as [->|(c & r & -> & Hc)]; [done|].
  destruct (rstrip_cons_nonspace c r Hc) as [r' Hr']. rewrite Hr'.
  simpl PyStr.lstrip. rewrite Hc. rewrite <- Hr'. apply rstrip_idemp.
Qed.

Example strip_inner_space : PyStr.strip "  maize  crop  " = "maize  crop".
Proof. reflexivity. Qed.

Example strip_only_spaces : PyStr.strip "   " = "".
Proof. reflexivity. Qed.

End PyStrFacts.

Module RenameFacts.
Import Pandas FieldDataProcessor Statements PyStrFacts.

(** A run of the loop that uses up its fuel has found every candidate among
    the labels. *)
Lemma while_temp_name_None fuel cols t :
  while_temp_name fuel cols t = None ->
  forall k, (k < fuel)%nat -> t +:+ underscores k ∈ cols.
Proof.
  revert t. induction fuel as [|fuel IH]; intros t H k Hk; [lia|].
  simpl in H. destruct (decide (t ∈ cols)) as [Hin|Hin]; [|discriminate].
  destruct k as [|k].
  - by rewrite append_empty_r.
  - rewrite <- append_underscores_S. apply IH; [done|lia].
Qed.

(** A run that returns has appended underscores to the start value until the
    candidate was no label. *)
Lemma while_temp_name_Some fuel cols t r :
  while_temp_name fuel cols t = Some r ->
  (r ∉ cols) /\ exists k, r = t +:+ underscores k.
Proof.
  revert t. induction fuel as [|fuel IH]; intros t H; [discriminate|].
  simpl in H. destruct (decide (t ∈ cols)) as [Hin|Hin].
  - destruct (IH _ H) as [Hr [k ->]]. split; [done|].
    exists (S k). by rewrite append_underscores_S.
  - injection H as <-. split; [done|]. exists O. by rewrite append_empty_r.
Qed.

(** The loop ends: with one test more than there are labels it returns. *)
Lemma while_temp_name_total cols t :
  exists r, while_temp_name (S (List.length cols)) cols t = Some r.
Proof.
  destruct (while_temp_name (S (List.length cols)) cols t) as [r|] eqn:H; [eauto|].
  exfalso.
  pose proof (while_temp_name_None _ _ _ H) as Hall.
  set (cands := (fun k => t +:+ underscores k) <$> seq 0 (S (List.length cols))).
  assert (NoDup cands) as Hnd.
  { pose proof (append_underscores_inj t) as Hinj.
    apply (NoDup_fmap_2 _), NoDup_seq. }
  assert (cands ⊆+ cols) as Hsub.
  { apply NoDup_submseteq; [done|]. intros x Hx.
    apply list_elem_of_fmap in Hx as [k [-> Hk]].
    apply Hall. apply elem_of_seq in Hk. lia. }
  apply submseteq_length in Hsub.
  unfold cands in Hsub. rewrite length_fmap, length_seq in Hsub. lia.
Qed.

Lemma temp_name_for_fresh cols :
  exists t, temp_name_for cols = Ok t /\ (t ∉ cols)
            /\ exists k, t = "__temp_name_for_swap__" +:+ underscores k.
Proof.
  unfold temp_name_for.
  destruct (while_temp_name_total cols "__temp_name_for_swap__") as [r Hr].
  rewrite Hr. exists r. split; [done|]. by apply while_temp_name_Some in Hr.
Qed.


Lemma rename_twice (c1 c2 t : string) (d : DataFrame) :
  t ∉ columns d ->
  rename {[t := c2]} (rename (<[c2 := c1]> {[c1 := t]}) d)
  = (fun c => (relabel c1 c2 t c.1, c.2)) <$> d.
Proof.
  intros Ht. unfold rename. rewrite <- list_fmap_compose.
  apply list_fmap_ext. intros i [n s] Hi. simpl.
  assert (n ≠ t) as Hn.
  { intros ->. apply Ht. unfold columns.
    apply list_elem_of_fmap. exists (t, s). split; [done|].
    apply list_elem_of_lookup. eauto. }
  f_equal. unfold relabel.
  destruct (decide (n = c2)) as [->|Hn2].
  - rewrite lookup_insert_eq. simpl.
    destruct (decide (c1 = t)) as [->|H1].
    + by rewrite lookup_singleton_eq.
    + rewrite lookup_singleton_ne; done.
  - rewrite lookup_insert_ne by done.
    destruct (decide (n = c1)) as [->|Hn1].
    + rewrite lookup_singleton_eq. simpl. by rewrite lookup_singleton_eq.
    + rewrite lookup_singleton_ne by done. simpl.
      rewrite lookup_singleton_ne; done.
Qed.

Lemma rename_columns_run {Engine} (self : Processor Engine) c1 c2 rest d :
  columns_to_rename self = (c1, c2) :: rest ->
  df self = Some d ->
  exists t,
    temp_name_for (columns d) = Ok t
    /\ rename_columns self
       = (with_df (Some ((fun c => (relabel c1 c2 t c.1, c.2)) <$> d))
            (with_trace (trace self ++ [LogInfo (swapped_message c1 c2)]) self),
          Ok tt).
Proof.
  intros Hc Hd.
  destruct (temp_name_for_fresh (columns d)) as [t [Ht [Hfresh _]]].
  exists t. split; [done|].
  unfold rename_columns, bind, attr, lift, logger_info, emit, get_df, set_df.
  rewrite Hc. simpl. rewrite Hd, Ht. simpl.
  rewrite rename_twice by done. reflexivity.
Qed.

End RenameFacts.

Module RenameColumns.
Import Pandas FieldDataProcessor Statements PyStrFacts RenameFacts Examples.

Lemma relabel_swap c1 c2 t n : c1 <> t -> relabel c1 c2 t n = swap_label c1 c2 n.
Proof.
  intros H. unfold relabel, swap_label.
  repeat case_decide; congruence.
Qed.

Lemma swap_label_involutive c1 c2 n : swap_label c1 c2 (swap_label c1 c2 n) = n.
Proof. unfold swap_label. repeat case_decide; congruence. Qed.

Lemma columns_relabel (f : string -> string) (d : DataFrame) :
  columns ((fun c => (f c.1, c.2)) <$> d) = f <$> columns d.
Proof.
  unfold columns. rewrite <- !list_fmap_compose. by apply list_fmap_ext.
Qed.

Lemma relabel_frame_ext (f g : string -> string) (d : DataFrame) :
  (forall n, n ∈ columns d -> f n = g n) ->
  (fun c => (f c.1, c.2)) <$> d = (fun c => (g c.1, c.2)) <$> d.
Proof.
  intros H. apply list_fmap_ext. intros i [n s] Hi. simpl. f_equal.
  apply H. unfold columns. apply list_elem_of_fmap. exists (n, s).
  split; [done|]. apply list_elem_of_lookup. eauto.
Qed.

(** C1. With the single entry [{c1: c2}] and both labels present,
    [rename_columns] returns normally and exchanges the two labels: every
    column keeps its place and its cells, a column labelled [c1] is now
    labelled [c2], one labelled [c2] is now labelled [c1], every other label
    is kept. The placeholder the loop settles on is
    ["__temp_name_for_swap__"] followed by underscores and is no label of
    the frame. *)
Theorem rename_columns_swaps {Engine} (self : Processor Engine) c1 c2 d :
  columns_to_rename self = [(c1, c2)] ->
  df self = Some d ->
  c1 ∈ columns d ->
  c2 ∈ columns d ->
  exists t k,
    temp_name_for (columns d) = Ok t
    /\ t = "__temp_name_for_swap__" +:+ underscores k
    /\ (t ∉ columns d)
    /\ rename_columns self
       = (with_df (Some ((fun c => (swap_label c1 c2 c.1, c.2)) <$> d))
            (with_trace (trace self ++ [LogInfo (swapped_message c1 c2)]) self),
          Ok tt)
    /\ (forall i n, columns d !! i = Some n ->
          columns ((fun c => (swap_label c1 c2 c.1, c.2)) <$> d) !! i
          = Some (if decide (n = c1) then c2
                  else if decide (n = c2) then c1 else n)).
Proof.
  intros Hc Hd H1 H2.
  destruct (rename_columns_run self c1 c2 [] d Hc Hd) as [t [Ht Hrun]].
  destruct (temp_name_for_fresh (columns d)) as [t' [Ht' [Hfresh [k Hk]]]].
  assert (t' = t) as -> by congruence.
  exists t, k. repeat split; try done.
  - rewrite Hrun. do 3 f_equal. apply relabel_frame_ext.
    intros n _. apply relabel_swap. intros ->. done.
  - intros i n Hi. rewrite columns_relabel, list_lookup_fmap, Hi. done.
Qed.

Lemma rename_columns_swaps_witness :
  df (rename_columns (holding params survey)).1 = Some survey_renamed
  /\ (rename_columns (holding params survey)).2 = Ok tt.
Proof.
  destruct (rename_columns_swaps (holding params survey)
              "Annual_yield" "Crop_type" survey)
    as (t & k & _ & _ & _ & Hrun & _).
  - reflexivity.
  - reflexivity.
  - by_compute.
  - by_compute.
  - rewrite Hrun. split; reflexivity.
Defined.

(** C7. With the single entry [{c1: c2}] and both labels present, a second
    [rename_columns] undoes the first: both calls return normally and the
    frame, labels included, is the one before the first call. *)
Theorem rename_columns_involution {Engine} (self : Processor Engine) c1 c2 d :
  columns_to_rename self = [(c1, c2)] ->
  df self = Some d ->
  c1 ∈ columns d ->
  c2 ∈ columns d ->
  (rename_columns self).2 = Ok tt
  /\ (rename_columns (rename_columns self).1).2 = Ok tt
  /\ df (rename_columns (rename_columns self).1).1 = Some d.
Proof.
  intros Hc Hd H1 H2.
  destruct (rename_columns_run self c1 c2 [] d Hc Hd) as [t [Ht Hrun]].
  destruct (temp_name_for_fresh (columns d)) as [t' [Ht' [Hfresh _]]].
  assert (t' = t) as -> by congruence.
  rewrite Hrun. simpl. split; [done|].
  set (d1 := (fun c => (relabel c1 c2 t c.1, c.2)) <$> d).
  set (self1 := with_df _ _).
  destruct (rename_columns_run self1 c1 c2 [] d1) as [u [Hu Hrun1]]; [done..|].
  destruct (temp_name_for_fresh (columns d1)) as [u' [Hu' [Hfresh1 _]]].
  assert (u' = u) as -> by congruence.
  rewrite Hrun1. simpl. split; [done|]. f_equal.
  assert (c1 ∈ columns d1) as H1'.
  { unfold d1. rewrite columns_relabel. apply list_elem_of_fmap.
    exists c2. split; [|done]. unfold relabel.
    rewrite decide_True by done. rewrite decide_False; [done|].
    intros ->. done. }
  unfold d1. rewrite <- list_fmap_compose.
  rewrite <- (list_fmap_id d) at 2. apply list_fmap_ext.
  intros i [n s] _. simpl. f_equal.
  rewrite !relabel_swap; [apply swap_label_involutive| |]; intros ->; done.
Qed.

Lemma rename_columns_involution_witness :
  df (rename_columns (rename_columns (holding params survey)).1).1 = Some survey.
Proof.
  apply (rename_columns_involution (holding params survey)
           "Annual_yield" "Crop_type" survey).
  - reflexivity.
  - reflexivity.
  - by_compute.
  - by_compute.
Defined.

Lemma snd_relabel (f : string -> string) (d : DataFrame) :
  ((fun c => (f c.1, c.2)) <$> d).*2 = d.*2.
Proof. rewrite <- list_fmap_compose. by apply list_fmap_ext. Qed.

(** C9, as the code has it. Whatever follows the first item of
    [columns_to_rename], the call reads the first key and the first value
    only: it behaves as with the one-item dict (same outcome, same frame,
    same log line), the cells are untouched, and every label other than the
    two of the first item is kept. A further item that names [c1] or [c2]
    does not protect that column from the exchange. *)
Theorem rename_columns_first_item_only {Engine} (self one : Processor Engine)
    c1 c2 rest d :
  columns_to_rename self = (c1, c2) :: rest ->
  columns_to_rename one = [(c1, c2)] ->
  df self = Some d ->
  df one = Some d ->
  (rename_columns self).2 = (rename_columns one).2
  /\ df (rename_columns self).1 = df (rename_columns one).1
  /\ trace (rename_columns self).1
     = trace self ++ [LogInfo (swapped_message c1 c2)]
  /\ exists d', df (rename_columns self).1 = Some d'
       /\ d'.*2 = d.*2
       /\ (c1 ∈ columns d -> c2 ∈ columns d ->
           columns d' = swap_label c1 c2 <$> columns d)
       /\ (forall i n, columns d !! i = Some n -> n <> c1 -> n <> c2 ->
           columns d' !! i = Some n).
Proof.
  intros Hs Ho Hd Hd'.
  destruct (rename_columns_run self c1 c2 rest d Hs Hd) as [t [Ht Hrun]].
  destruct (rename_columns_run one c1 c2 [] d Ho Hd') as [t' [Ht' Hrun']].
  assert (t' = t) as -> by congruence.
  destruct (temp_name_for_fresh (columns d)) as [u [Hu [Hfresh _]]].
  assert (u = t) as -> by congruence.
  rewrite Hrun, Hrun'. simpl. repeat split; try done.
  eexists. split; [reflexivity|]. split; [apply snd_relabel|]. split.
  - intros H1 _. rewrite columns_relabel. apply list_fmap_ext.
    intros i n _. apply relabel_swap. intros ->. done.
  - intros i n Hi Hn1 Hn2. rewrite columns_relabel, list_lookup_fmap, Hi.
    simpl. unfold relabel. by rewrite !decide_False.
Qed.

Lemma rename_columns_first_item_only_witness :
  df (rename_columns (holding params_two_entries survey)).1
  = df (rename_columns (holding params survey)).1.
Proof.
  apply (rename_columns_first_item_only
           (holding params_two_entries survey) (holding params survey)
           "Annual_yield" "Crop_type" [("Crop_type", "Annual_yield")] survey);
    reflexivity.
Defined.

(** C9, as stated, fails on the usual two-item spelling of an exchange: the
    second item names the column [Crop_type] (the fourth of [survey]), and
    that column is renamed by the call. *)
Lemma rename_columns_other_item_renamed :
  drop 1 (columns_to_rename (holding params_two_entries survey))
  = [("Crop_type", "Annual_yield")]
  /\ columns survey !! 3%nat = Some "Crop_type"
  /\ exists d', df (rename_columns (holding params_two_entries survey)).1 = Some d'
       /\ columns d' !! 3%nat = Some "Annual_yield".
Proof.
  split; [reflexivity|]. split; [reflexivity|].
  exists survey_renamed. split; vm_compute; reflexivity.
Qed.

Lemma process_unfold {Engine} create query read (self : Processor Engine) :
  process create query read self
  = match ingest_sql_data create query self with
    | (s1, Raise e) => (s1, Raise e)
    | (s1, Ok _) =>
        match rename_columns s1 with
        | (s2, Raise e) => (s2, Raise e)
        | (s2, Ok _) =>
            match apply_corrections "Crop_type" "Elevation" s2 with
            | (s3, Raise e) => (s3, Raise e)
            | (s3, Ok _) => weather_station_mapping read s3
            end
        end
    end.
Proof. reflexivity. Qed.

(** C3, as the code has it. On a frame that lacks one of the two labels (or
    both) [rename_columns] raises nothing: [rename] skips the labels it does
    not find. The cells are untouched; a present [c1] column is relabelled
    [c2], a present [c2] column is relabelled [c1] (unless [c1] is the
    placeholder itself), and with neither present the frame is unchanged.
    [process], once the load has returned such a frame, goes on with
    [apply_corrections] and [weather_station_mapping] on the outcome. *)
Theorem rename_columns_missing_label {Engine} (self : Processor Engine)
    c1 c2 rest d :
  columns_to_rename self = (c1, c2) :: rest ->
  df self = Some d ->
  (c1 ∉ columns d) \/ (c2 ∉ columns d) ->
  exists t d',
    temp_name_for (columns d) = Ok t
    /\ rename_columns self
       = (with_df (Some d')
            (with_trace (trace self ++ [LogInfo (swapped_message c1 c2)]) self),
          Ok tt)
    /\ d'.*2 = d.*2
    /\ (c1 ∈ columns d ->
        columns d' = (fun n => if decide (n = c1) then c2 else n) <$> columns d)
    /\ (c2 ∈ columns d -> c1 <> t ->
        columns d' = (fun n => if decide (n = c2) then c1 else n) <$> columns d)
    /\ (c1 ∉ columns d -> c2 ∉ columns d -> d' = d)
    /\ (forall create query read (self0 : Processor Engine) r,
          ingest_sql_data create query self0 = (self, Ok r) ->
          process create query read self0
          = bind (apply_corrections "Crop_type" "Elevation")
                 (fun _ => weather_station_mapping read)
                 (with_df (Some d')
                    (with_trace
                       (trace self ++ [LogInfo (swapped_message c1 c2)]) self))).
Proof.
  intros Hc Hd Hmiss.
  destruct (rename_columns_run self c1 c2 rest d Hc Hd) as [t [Ht Hrun]].
  exists t. eexists. split; [done|]. split; [exact Hrun|].
  split; [apply snd_relabel|]. repeat split.
  - intros H1. destruct Hmiss as [?|H2]; [done|].
    rewrite columns_relabel. apply list_fmap_ext. intros i n Hi.
    assert (n ∈ columns d) as Hn by (apply list_elem_of_lookup; eauto).
    unfold relabel. rewrite decide_False; [done|]. intros ->. done.
  - intros H2 Hne. destruct Hmiss as [H1|?]; [|done].
    rewrite columns_relabel. apply list_fmap_ext. intros i n Hi.
    assert (n ∈ columns d) as Hn by (apply list_elem_of_lookup; eauto).
    unfold relabel. rewrite (decide_False (P := c1 = t)) by done.
    case_decide; [done|]. rewrite decide_False; [done|]. intros ->. done.
  - intros H1 H2. rewrite <- (list_fmap_id d) at 2. apply list_fmap_ext.
    intros i [n s] Hi. simpl.
    assert (n ∈ columns d) as Hn.
    { unfold columns. apply list_elem_of_fmap. exists (n, s). split; [done|].
      apply list_elem_of_lookup; eauto. }
    unfold relabel. rewrite !decide_False; [done| |]; intros ->; done.
  - intros create query read self0 r Hin.
    rewrite process_unfold, Hin, Hrun. reflexivity.
Qed.

Lemma rename_columns_missing_label_witness :
  (rename_columns (holding params_missing survey_renamed)).2 = Ok tt.
Proof.
  destruct (rename_columns_missing_label (holding params_missing survey_renamed)
              "Yield" "Crop_type" [] survey_renamed) as (t & d' & _ & Hrun & _).
  - reflexivity.
  - reflexivity.
  - left. by_compute.
  - rewrite Hrun. reflexivity.
Defined.

(** C3, as stated, fails: [survey_renamed] has no column [Yield], yet
    [rename_columns] returns normally, and [process] on that load does not
    stop at the renaming: the line of the exchange is logged, the elevations
    are already corrected, and the exception is the [KeyError] of
    [apply_corrections]; the frame is not the loaded one. *)
Lemma rename_columns_missing_label_no_error :
  ("Yield" ∉ columns survey_renamed)
  /\ (rename_columns (holding params_missing survey_renamed)).2 = Ok tt
  /\ (process engine_ok (query_returns survey_renamed) (csv_returns stations)
        (init params_missing)).2 = Raise (KeyError "Crop_type")
  /\ df (process engine_ok (query_returns survey_renamed) (csv_returns stations)
           (init params_missing)).1
     = Some [ ("Field_ID", [VNum 1; VNum 2; VNum 5]);
              ("Elevation", [VNum 120; VNum 35; VNum 0]);
              ("Yield", [VStr "maize "; VStr "cassaval"; VStr " tea"]);
              ("Annual_yield", [VNum 7; VNum 3; VNum 4]) ]
  /\ df (process engine_ok (query_returns survey_renamed) (csv_returns stations)
           (init params_missing)).1
     <> Some survey_renamed.
Proof.
  split; [by_compute|]. split; [vm_compute; reflexivity|].
  split; [vm_compute; reflexivity|]. split; [vm_compute; reflexivity|].
  vm_compute. discriminate.
Qed.

End RenameColumns.

(** ** Columns read and written by label *)

Module FrameFacts.
Import Pandas FieldDataProcessor Statements.

Lemma getitem_Ok_elem label (d : DataFrame) s :
  getitem label d = Ok s -> (label, s) ∈ d.
Proof.
  induction d as [|[n c] d IH]; simpl; [discriminate|].
  case_decide as Hn.
  - intros [= ->]. subst. apply list_elem_of_here.
  - intros H. apply list_elem_of_further. auto.
Qed.

Lemma getitem_columns label (d : DataFrame) :
  label ∈ columns d <-> exists s, getitem label d = Ok s.
Proof.
  split.
  - induction d as [|[n c] d IH]; simpl.
    + intros H. by apply elem_of_nil in H.
    + intros H. case_decide as Hn; [eauto|].
      apply elem_of_cons in H as [->|H]; [done|]. auto.
  - intros [s Hs]. apply getitem_Ok_elem in Hs.
    unfold columns. apply list_elem_of_fmap. by exists (label, s).
Qed.

Lemma getitem_not_columns label (d : DataFrame) :
  label ∉ columns d -> getitem label d = Raise (KeyError label).
Proof.
  induction d as [|[n c] d IH]; simpl; [done|].
  intros H. apply not_elem_of_cons in H as [H1 H2].
  rewrite decide_False by done. auto.
Qed.

Lemma getitem_fmap_eq label s (d : DataFrame) :
  label ∈ columns d ->
  getitem label ((fun c => (c.1, if decide (c.1 = label) then s else c.2)) <$> d)
  = Ok s.
Proof.
  induction d as [|[n c] d IH]; simpl.
  - intros H. by apply elem_of_nil in H.
  - intros H. case_decide as Hn; [done|].
    apply elem_of_cons in H as [->|H]; [done|]. auto.
Qed.

Lemma getitem_app_not label (d e : DataFrame) :
  label ∉ columns d -> getitem label (d ++ e) = getitem label e.
Proof.
  induction d as [|[n c] d IH]; simpl; [done|].
  intros H. apply not_elem_of_cons in H as [H1 H2].
  rewrite decide_False by done. auto.
Qed.

Lemma getitem_app_in label (d e : DataFrame) :
  label ∈ columns d -> getitem label (d ++ e) = getitem label d.
Proof.
  induction d as [|[n c] d IH]; simpl.
  - intros H. by apply elem_of_nil in H.
  - intros H. case_decide as Hn; [done|].
    apply elem_of_cons in H as [->|H]; [done|]. auto.
Qed.

(** Reading back the column just written. *)
Lemma getitem_setitem_eq label s (d : DataFrame) :
  getitem label (setitem label s d) = Ok s.
Proof.
  unfold setitem. case_decide as Hin.
  - by apply getitem_fmap_eq.
  - rewrite getitem_app_not by done. simpl. by rewrite decide_True.
Qed.

(** Writing a column leaves the others as they are. *)
Lemma getitem_setitem_ne label other s (d : DataFrame) :
  other <> label -> getitem other (setitem label s d) = getitem other d.
Proof.
  intros Hne. unfold setitem. case_decide as Hin.
  - clear Hin. induction d as [|[n c] d IH]; simpl; [done|].
    destruct (decide (n = other)) as [->|Hn]; [|apply IH].
    by rewrite decide_False.
  - destruct (decide (other ∈ columns d)) as [Ho|Ho].
    + by apply getitem_app_in.
    + rewrite getitem_app_not by done. simpl.
      rewrite decide_False by done. by rewrite getitem_not_columns.
Qed.

Lemma columns_setitem label s (d : DataFrame) :
  label ∈ columns d -> columns (setitem label s d) = columns d.
Proof.
  intros Hin. unfold setitem. rewrite decide_True by done.
  unfold columns. rewrite <- list_fmap_compose. by apply list_fmap_ext.
Qed.

Lemma setitem_setitem label s u (d : DataFrame) :
  setitem label u (setitem label s d) = setitem label u d.
Proof.
  destruct (decide (label ∈ columns d)) as [Hin|Hin].
  - unfold setitem at 1. rewrite columns_setitem by done.
    unfold setitem. rewrite !(decide_True (P := label ∈ columns d)) by done.
    rewrite <- list_fmap_compose. apply list_fmap_ext.
    intros i [n c] _. simpl. by case_decide.
  - assert (label ∈ columns (d ++ [(label, s)])) as Hin'.
    { unfold columns. rewrite fmap_app. apply elem_of_app. right.
      simpl. apply list_elem_of_here. }
    unfold setitem. destruct (decide (label ∈ columns d)) as [|_]; [done|].
    destruct (decide (label ∈ columns (d ++ [(label, s)]))) as [_|]; [|done].
    rewrite fmap_app. simpl. rewrite decide_True by done. f_equal.
    rewrite <- (list_fmap_id d) at 2. apply list_fmap_ext.
    intros i [n c] Hi. simpl. rewrite decide_False; [done|].
    intros ->. apply Hin. unfold columns. apply list_elem_of_fmap.
    exists (label, c). split; [done|]. apply list_elem_of_lookup; eauto.
Qed.

(** Positionwise view of a write to an existing label. *)
Lemma setitem_lookup label s (d : DataFrame) i c :
  label ∈ columns d ->
  d !! i = Some c ->
  setitem label s d !! i = Some (c.1, if decide (c.1 = label) then s else c.2).
Proof.
  intros Hin Hi. unfold setitem. rewrite decide_True by done.
  by rewrite list_lookup_fmap, Hi.
Qed.

(** With distinct labels a column is the one its label reads. *)
Lemma elem_getitem label c (d : DataFrame) :
  NoDup (columns d) -> (label, c) ∈ d -> getitem label d = Ok c.
Proof.
  induction d as [|[n s] d IH]; simpl.
  - intros _ H. by apply elem_of_nil in H.
  - intros Hnd H. apply NoDup_cons in Hnd as [Hn Hnd].
    apply elem_of_cons in H as [[= -> ->]|H].
    + by rewrite decide_True.
    + rewrite decide_False; [auto|]. intros ->. apply Hn.
      unfold columns. apply list_elem_of_fmap. by exists (label, c).
Qed.

Lemma kept_outside_refl touched (d : DataFrame) : kept_outside touched d d.
Proof. split; [done|]. intros i c Hi. exists c. done. Qed.

Lemma kept_outside_trans touched (d1 d2 d3 : DataFrame) :
  kept_outside touched d1 d2 -> kept_outside touched d2 d3 ->
  kept_outside touched d1 d3.
Proof.
  intros [Hl1 H1] [Hl2 H2]. split; [congruence|].
  intros i c Hi.
  destruct (H1 i c Hi) as (c1 & Hi1 & Hn1 & Hr1 & Hk1).
  destruct (H2 i c1 Hi1) as (c2 & Hi2 & Hn2 & Hr2 & Hk2).
  exists c2. repeat split; [done|congruence|congruence|].
  intros Hc. rewrite Hk2; [auto|]. by rewrite Hn1.
Qed.

(** Writing as many cells as the column had keeps the frame outside it. *)
Lemma kept_outside_setitem touched label s x (d : DataFrame) :
  NoDup (columns d) ->
  getitem label d = Ok s ->
  List.length x = List.length s ->
  label ∈ touched ->
  kept_outside touched d (setitem label x d).
Proof.
  intros Hnd Hget Hlen Ht.
  assert (label ∈ columns d) as Hin by (apply getitem_columns; eauto).
  split.
  - unfold setitem. rewrite decide_True by done. by rewrite length_fmap.
  - intros i [n c] Hi. eexists. split; [by apply setitem_lookup|]. simpl.
    split; [done|]. split.
    + case_decide as Hn; [|done]. subst n.
      assert (getitem label d = Ok c) as Hc.
      { apply elem_getitem; [done|]. apply list_elem_of_lookup; eauto. }
      congruence.
    + intros Hc. rewrite decide_False; [done|]. intros ->. done.
Qed.

Lemma kept_outside_nrows touched (d d' : DataFrame) :
  kept_outside touched d d' -> nrows d' = nrows d.
Proof.
  intros [Hl H]. destruct d as [|[n c] d].
  - destruct d'; [done|discriminate].
  - destruct (H O (n, c) eq_refl) as ([n' c'] & Hi & _ & Hr & _).
    destruct d' as [|? d']; [discriminate|]. by injection Hi as ->.
Qed.

(** Writing back what was read changes nothing. *)
Lemma setitem_getitem_id label s (d : DataFrame) :
  NoDup (columns d) -> getitem label d = Ok s -> setitem label s d = d.
Proof.
  intros Hnd Hget.
  assert (label ∈ columns d) as Hin by (apply getitem_columns; eauto).
  unfold setitem. rewrite decide_True by done.
  rewrite <- (list_fmap_id d) at 2. apply list_fmap_ext.
  intros i [n c] Hi. simpl. case_decide as Hn; [|done]. subst n.
  assert (getitem label d = Ok c) as Hc.
  { apply elem_getitem; [done|]. apply list_elem_of_lookup; eauto. }
  congruence.
Qed.

End FrameFacts.

(** ** Column transforms *)

Module SeriesFacts.
Import Pandas FieldDataProcessor Statements.

Lemma numeric_numbers s : numeric s -> numbers s.
Proof.
  intros [H|H]; (eapply Forall_impl; [exact H|]); by intros [z|f|x|].
Qed.

Lemma abs_numbers s : numbers s -> abs s = Ok (abs_cell <$> s).
Proof.
  unfold abs. induction 1 as [|v s Hv _ IH]; [done|].
  simpl. rewrite IH. by destruct v.
Qed.

Lemma abs_Ok s a : abs s = Ok a -> numbers s /\ a = abs_cell <$> s.
Proof.
  unfold abs. revert a. induction s as [|v s IH]; intros a; simpl.
  - intros [= <-]. split; [constructor|done].
  - destruct v as [z|f|x|]; simpl; try discriminate;
      destruct (rmapM abs_value s) as [a'|] eqn:E; simpl; try discriminate;
      intros [= <-]; destruct (IH _ eq_refl) as [Hs ->];
      (split; [by constructor|done]).
Qed.



Lemma SFabs_idemp f : SFabs (SFabs f) = SFabs f.
Proof. by destruct f. Qed.


Lemma abs_cell_idemp v : abs_cell (abs_cell v) = abs_cell v.
Proof.
  destruct v as [z|f|x|]; simpl; [|by rewrite SFabs_idemp|done..].
  f_equal. destruct (decide (z = int64_min)) as [->|Hz]; [done|].
  case_decide as H'; [done|]. apply Z.abs_idemp.
Qed.

Lemma abs_cell_numbers s : numbers s -> numbers (abs_cell <$> s).
Proof.
  unfold numbers. intros H. apply Forall_fmap.
  eapply Forall_impl; [exact H|]. by intros [z|f|x|].
Qed.

Lemma str_Ok s s' : str s = Ok s' -> s' = s.
Proof. unfold str. case_match; [|discriminate]. by intros [= <-]. Qed.

Lemma existsb_is_str_object s :
  existsb is_str s = true -> dtype_of s = object.
Proof.
  intros H.
  assert (forallb is_int64 s = false /\ forallb is_float s = false) as [H1 H2].
  { induction s as [|v s IH]; [discriminate|]. simpl in *.
    destruct v as [z|f|x|]; simpl in *; try done.
    - destruct (IH H) as [-> _]. by rewrite andb_false_r.
    - by destruct (IH H) as [_ ->]. }
  unfold dtype_of. destruct s; [done|]. by rewrite H1, H2.
Qed.

Lemma str_with_string s : existsb is_str s = true -> str s = Ok s.
Proof. intros H. unfold str, str_takes. by rewrite H. Qed.

Lemma str_string_valued s : string_valued s -> str s = Ok s.
Proof.
  intros H. destruct H as [|v s Hv Hs].
  - done.
  - apply str_with_string. simpl. by rewrite Hv.
Qed.

(** A column of numbers that the accessor takes has no rows. *)
Lemma numbers_str_nil s : numbers s -> str s = Ok s -> s = [].
Proof.
  intros Hnum. unfold str. destruct (str_takes s) eqn:E; [|discriminate].
  intros _. unfold str_takes in E. apply orb_true_iff in E as [E|E].
  - exfalso. induction Hnum as [|v s Hv _ IH]; [discriminate|].
    simpl in E. apply orb_true_iff in E as [E|E]; [by destruct v|auto].
  - destruct Hnum as [|v s Hv _]; [done|]. simpl in E. by destruct v.
Qed.

Lemma string_valued_numbers_nil s : string_valued s -> numbers s -> s = [].
Proof.
  intros Hv Hn. destruct Hv as [|v s' Hv _]; [done|].
  apply Forall_cons in Hn as [Hn _]. by destruct v.
Qed.

(** The correction leaves [None] as it is. *)
Lemma crop_cell_none v2r s :
  forallb is_none s = true -> crop_cell v2r <$> s = s.
Proof.
  induction s as [|v s IH]; [done|]. intros H. simpl in H.
  apply andb_true_iff in H as [Hv Hs]. rewrite fmap_cons. f_equal; [|by apply IH].
  by destruct v.
Qed.

Lemma crop_cell_is_str v2r v : is_str (crop_cell v2r v) = is_str v.
Proof.
  destruct v as [z|f|x|]; try done.
  unfold crop_cell, renamed_value. simpl. by case_match.
Qed.

(** A column the accessor takes is taken again once corrected. *)
Lemma str_crop_cell v2r s :
  str s = Ok s -> str (crop_cell v2r <$> s) = Ok (crop_cell v2r <$> s).
Proof.
  unfold str at 1. destruct (str_takes s) eqn:E; [|discriminate]. intros _.
  unfold str_takes in E. apply orb_true_iff in E as [E|E].
  - apply str_with_string. induction s as [|v s IH]; [done|]. simpl in *.
    rewrite crop_cell_is_str. destruct (is_str v); [done|]. by apply IH.
  - rewrite crop_cell_none by done. unfold str, str_takes.
    by rewrite E, orb_true_r.
Qed.

End SeriesFacts.

(** ** [apply_corrections] *)

Module ApplyCorrections.
Import Pandas FieldDataProcessor Statements FrameFacts SeriesFacts Examples.

(** The call, outcome by outcome: nothing is written when the magnitude
    column cannot be read or has no absolute value; the corrected magnitudes
    are already written when the categorical column fails. *)
Lemma apply_corrections_run {Engine} (self : Processor Engine) d cn an :
  df self = Some d ->
  apply_corrections cn an self
  = match getitem an d with
    | Raise e => (self, Raise e)
    | Ok s =>
        match abs s with
        | Raise e => (self, Raise e)
        | Ok a =>
            match getitem cn (setitem an a d) with
            | Raise e => (with_df (Some (setitem an a d)) self, Raise e)
            | Ok s1 =>
                match str s1 with
                | Raise e => (with_df (Some (setitem an a d)) self, Raise e)
                | Ok _ =>
                    (with_df
                       (Some (setitem cn (crop_cell (values_to_rename self) <$> s1)
                                (setitem an a d))) self,
                     Ok tt)
                end
            end
        end
    end.
Proof.
  intros Hd.
  unfold apply_corrections, bind, lift, attr, get_df, set_df. rewrite Hd.
  destruct (getitem an d) as [s|e]; [|done].
  destruct (abs s) as [a|e]; [|done]. simpl.
  destruct (getitem cn (setitem an a d)) as [s1|e]; [|done].
  unfold str_strip. destruct (str s1) as [s1'|e] eqn:Hstr; [|done].
  apply str_Ok in Hstr as ->. simpl.
  rewrite getitem_setitem_eq, setitem_setitem. unfold with_df. simpl.
  unfold apply. rewrite <- list_fmap_compose. reflexivity.
Qed.





(** C5. On a frame whose categorical column is string-valued (and whose
    magnitude column is numeric, an [int64] or a [float64] column, so that
    the first line of the method passes), [apply_corrections] returns
    normally and every cell [x]
    of the categorical column has become: [x.strip()], replaced by its image
    in [values_to_rename] when it is a key there, kept as stripped when it
    is not. The labels are taken distinct. *)
Theorem apply_corrections_categorical {Engine} (self : Processor Engine)
    d cn an a s :
  df self = Some d ->
  NoDup (columns d) ->
  getitem an d = Ok a ->
  numeric a ->
  getitem cn d = Ok s ->
  string_valued s ->
  exists d' s',
    apply_corrections cn an self = (with_df (Some d') self, Ok tt)
    /\ getitem cn d' = Ok s'
    /\ List.length s' = List.length s
    /\ (forall i x, s !! i = Some (VStr x) ->
         s' !! i = Some (VStr (match values_to_rename self !! PyStr.strip x with
                               | Some y => y
                               | None => PyStr.strip x
                               end))).
Proof.
  intros Hd _ Ha Hnum Hs Hstr. apply numeric_numbers in Hnum.
  rewrite (apply_corrections_run self d cn an Hd), Ha.
  rewrite abs_numbers by done.
  assert (getitem cn (setitem an (abs_cell <$> a) d) = Ok s) as ->.
  { destruct (decide (cn = an)) as [->|Hne].
    - rewrite getitem_setitem_eq. f_equal.
      assert (a = s) as -> by congruence.
      by rewrite (string_valued_numbers_nil s).
    - by rewrite getitem_setitem_ne. }
  rewrite str_string_valued by done.
  eexists _, _. split; [reflexivity|]. split; [apply getitem_setitem_eq|].
  split; [by rewrite length_fmap|].
  intros i x Hi. rewrite list_lookup_fmap, Hi. simpl.
  unfold crop_cell, renamed_value. simpl. by case_match.
Qed.

Lemma apply_corrections_categorical_witness :
  exists d', df (apply_corrections "Crop_type" "Elevation"
                   (holding params survey_renamed)).1 = Some d'
             /\ getitem "Crop_type" d'
                = Ok [VStr "Maize"; VStr "cassava"; VStr "tea"].
Proof.
  destruct (apply_corrections_categorical (holding params survey_renamed)
              survey_renamed "Crop_type" "Elevation"
              [VNum (-120); VNum 35; VNum 0]
              [VStr "maize "; VStr "cassaval"; VStr " tea"])
    as (d' & s' & Hrun & Hget & _ & _).
  - reflexivity.
  - by_compute.
  - reflexivity.
  - left. repeat constructor.
  - reflexivity.
  - repeat constructor.
  - exists d'. rewrite Hrun. split; [reflexivity|].
    vm_compute in Hrun. injection Hrun as <-. vm_compute. reflexivity.
Defined.

(** C10. On a frame that has both labels, after [apply_corrections]
    (however the call ends) the labels are the same, in the same order;
    every column keeps its number of rows, so the row count is the same;
    every column other than the two named ones has the cells it had, row
    by row. When the call returns normally on two different labels, the two
    columns are the cellwise images of what they were, so their rows are in
    the same order too. The labels are taken distinct. *)
Theorem apply_corrections_frame {Engine} (self : Processor Engine) d cn an :
  df self = Some d ->
  NoDup (columns d) ->
  cn ∈ columns d ->
  an ∈ columns d ->
  exists d',
    df (apply_corrections cn an self).1 = Some d'
    /\ columns d' = columns d
    /\ nrows d' = nrows d
    /\ kept_outside [cn; an] d d'
    /\ (forall l, l <> cn -> l <> an -> getitem l d' = getitem l d)
    /\ ((apply_corrections cn an self).2 = Ok tt -> cn <> an ->
        forall a s, getitem an d = Ok a -> getitem cn d = Ok s ->
          getitem an d' = Ok (abs_cell <$> a)
          /\ getitem cn d' = Ok (crop_cell (values_to_rename self) <$> s)).
Proof.
  intros Hd Hnd Hcn Han.
  assert (forall d', kept_outside [cn; an] d d' ->
            nrows d' = nrows d /\ kept_outside [cn; an] d d') as Hk.
  { intros d' H. split; [by eapply kept_outside_nrows|done]. }
  rewrite (apply_corrections_run self d cn an Hd).
  destruct (getitem an d) as [a|e] eqn:Ha.
  2:{ apply getitem_columns in Han as [? ?]. congruence. }
  destruct (abs a) as [a'|e] eqn:Habs.
  2:{ simpl. exists d. split; [done|]. split; [done|].
      split; [done|]. split; [apply kept_outside_refl|]. done. }
  apply abs_Ok in Habs as [Hfree ->].
  set (d1 := setitem an (abs_cell <$> a) d).
  assert (columns d1 = columns d) as Hc1 by by apply columns_setitem.
  assert (kept_outside [cn; an] d d1) as Hk1.
  { eapply kept_outside_setitem; [done|exact Ha|by rewrite length_fmap|].
    repeat constructor. }
  destruct (getitem cn d1) as [s1|e] eqn:Hs1.
  2:{ simpl. exists d1. split; [done|]. split; [done|].
      destruct (Hk _ Hk1) as [Hr1 _].
      split; [done|]. split; [done|]. split; [|done].
      intros l _ Hl. by apply getitem_setitem_ne. }
  destruct (str s1) as [?|e] eqn:Hstr.
  2:{ simpl. exists d1. split; [done|]. split; [done|].
      destruct (Hk _ Hk1) as [Hr1 _].
      split; [done|]. split; [done|]. split; [|done].
      intros l _ Hl. by apply getitem_setitem_ne. }
  simpl. set (u := crop_cell (values_to_rename self) <$> s1).
  exists (setitem cn u d1). split; [done|].
  assert (kept_outside [cn; an] d (setitem cn u d1)) as Hk3.
  { eapply kept_outside_trans; [exact Hk1|].
    eapply kept_outside_setitem;
      [by rewrite Hc1|exact Hs1| |repeat constructor].
    unfold u. by rewrite length_fmap. }
  split. { rewrite columns_setitem; [done|]. by rewrite Hc1. }
  destruct (Hk _ Hk3) as [Hr3 _].
  split; [done|]. split; [done|]. split; [|intros _ Hne x y Hx Hy; split].
  - intros l Hl1 Hl2. rewrite getitem_setitem_ne by done.
    by apply getitem_setitem_ne.
  - rewrite getitem_setitem_ne by done. unfold d1.
    rewrite getitem_setitem_eq. congruence.
  - rewrite getitem_setitem_eq. unfold u. do 2 f_equal.
    unfold d1 in Hs1. rewrite getitem_setitem_ne in Hs1 by done. congruence.
Qed.

Lemma apply_corrections_frame_witness :
  exists d', df (apply_corrections "Crop_type" "Elevation"
                   (holding params survey_renamed)).1 = Some d'
             /\ columns d' = columns survey_renamed
             /\ nrows d' = 3%nat
             /\ getitem "Annual_yield" d' = Ok [VNum 7; VNum 3; VNum 4].
Proof.
  destruct (apply_corrections_frame (holding params survey_renamed)
              survey_renamed "Crop_type" "Elevation")
    as (d' & Hd' & Hcols & Hrows & _ & Hkeep & _).
  - reflexivity.
  - by_compute.
  - by_compute.
  - by_compute.
  - exists d'. split; [exact Hd'|]. split; [exact Hcols|].
    split; [exact Hrows|]. rewrite Hkeep; [reflexivity|discriminate..].
Defined.

(** What a normal return tells. *)
Lemma apply_corrections_Ok {Engine} (self self1 : Processor Engine) d cn an :
  df self = Some d ->
  apply_corrections cn an self = (self1, Ok tt) ->
  exists s s1,
    getitem an d = Ok s /\ numbers s
    /\ getitem cn (setitem an (abs_cell <$> s) d) = Ok s1
    /\ str s1 = Ok s1
    /\ self1 = with_df
                 (Some (setitem cn (crop_cell (values_to_rename self) <$> s1)
                          (setitem an (abs_cell <$> s) d))) self.
Proof.
  intros Hd. rewrite (apply_corrections_run self d cn an Hd).
  destruct (getitem an d) as [s|e]; [|discriminate].
  destruct (abs s) as [a|e] eqn:Habs; [|discriminate].
  apply abs_Ok in Habs as [Hnum ->].
  destruct (getitem cn _) as [s1|e] eqn:Hs1; [|discriminate].
  destruct (str s1) as [s1'|e] eqn:Hstr; [|discriminate].
  intros [= <-]. exists s, s1. repeat split; try done.
  pose proof Hstr as Hstr'. apply str_Ok in Hstr' as ->. done.
Qed.

Lemma crop_cell_in_range v2r s :
  range_stable v2r -> in_range v2r s -> crop_cell v2r <$> s = s.
Proof.
  intros Hst. induction 1 as [|v s (k & y & Hk & ->) _ IH]; [done|].
  simpl. f_equal; [|apply IH].
  destruct (Hst k y Hk) as [Hstrip Hy].
  unfold crop_cell, renamed_value. simpl. rewrite Hstrip.
  destruct Hy as [-> | ->]; done.
Qed.

(** With stable dict values the correction of a cell is idempotent, be the
    cell substituted or passed through. *)
Lemma crop_cell_idemp v2r v :
  range_stable v2r -> crop_cell v2r (crop_cell v2r v) = crop_cell v2r v.
Proof.
  intros Hst. destruct v as [z|f|x|]; [done|done| |done].
  unfold crop_cell, renamed_value. simpl.
  destruct (v2r !! PyStr.strip x) as [y|] eqn:Hx; simpl.
  - destruct (Hst _ _ Hx) as [-> [-> | ->]]; done.
  - by rewrite PyStrFacts.strip_idemp, Hx.
Qed.

(** The frame after a call that returned normally, and the magnitude
    column in it: numbers, already absolute; when the two labels are the
    same, a column without rows. *)
Lemma apply_corrections_after {Engine} (self self1 : Processor Engine)
    d cn an :
  df self = Some d ->
  NoDup (columns d) ->
  apply_corrections cn an self = (self1, Ok tt) ->
  exists d1 u a1,
    self1 = with_df (Some d1) self
    /\ NoDup (columns d1)
    /\ getitem cn d1 = Ok (crop_cell (values_to_rename self) <$> u)
    /\ str u = Ok u
    /\ getitem an d1 = Ok a1
    /\ numbers a1
    /\ abs_cell <$> a1 = a1
    /\ (cn = an -> a1 = []).
Proof.
  intros Hd Hnd Hrun.
  destruct (apply_corrections_Ok self self1 d cn an Hd Hrun)
    as (s & s1 & Hs & Hnum & Hs1 & Hstr & ->).
  set (v2r := values_to_rename self) in *.
  set (a := abs_cell <$> s) in *. set (u := crop_cell v2r <$> s1).
  assert (an ∈ columns d) as Han by (apply getitem_columns; eauto).
  assert (columns (setitem an a d) = columns d) as Hc0
    by by apply columns_setitem.
  assert (cn ∈ columns d) as Hcn.
  { rewrite <- Hc0. apply getitem_columns; eauto. }
  set (d1 := setitem cn u (setitem an a d)).
  assert (columns d1 = columns d) as Hc1.
  { unfold d1. rewrite columns_setitem; [done|]. by rewrite Hc0. }
  assert (getitem cn d1 = Ok u) as Hu by apply getitem_setitem_eq.
  exists d1, s1.
  destruct (decide (cn = an)) as [->|Hne].
  - assert (s1 = a) as Hsa.
    { rewrite getitem_setitem_eq in Hs1. congruence. }
    assert (s1 = []) as Hnil.
    { apply numbers_str_nil; [|done]. rewrite Hsa.
      by apply abs_cell_numbers. }
    exists []. split; [done|]. split; [by rewrite Hc1|]. split; [done|].
    split; [done|]. split; [|by repeat split; try constructor].
    rewrite Hu. unfold u. by rewrite Hnil.
  - exists a. split; [done|]. split; [by rewrite Hc1|]. split; [done|].
    split; [done|]. split.
    { unfold d1. rewrite getitem_setitem_ne by done.
      apply getitem_setitem_eq. }
    split; [by apply abs_cell_numbers|]. split; [|done].
    unfold a. rewrite <- list_fmap_compose. apply list_fmap_ext.
    intros i v _. apply abs_cell_idemp.
Qed.

(** The second of two calls, spelled out. *)
Lemma apply_corrections_again {Engine} (self self1 : Processor Engine) d cn an :
  df self = Some d ->
  NoDup (columns d) ->
  apply_corrections cn an self = (self1, Ok tt) ->
  exists d1 u,
    self1 = with_df (Some d1) self
    /\ NoDup (columns d1)
    /\ getitem cn d1 = Ok (crop_cell (values_to_rename self) <$> u)
    /\ apply_corrections cn an self1
       = (with_df
            (Some (setitem cn
                     (crop_cell (values_to_rename self)
                        <$> (crop_cell (values_to_rename self) <$> u)) d1))
            self1, Ok tt).
Proof.
  intros Hd Hnd Hrun.
  destruct (apply_corrections_after self self1 d cn an Hd Hnd Hrun)
    as (d1 & u & a1 & -> & Hnd1 & Hu & Hstr & Ha1 & Hnum1 & Hidem & _).
  exists d1, u. split; [done|]. split; [done|]. split; [done|].
  rewrite (apply_corrections_run (with_df (Some d1) self) d1 cn an eq_refl).
  rewrite Ha1. rewrite abs_numbers by done. rewrite Hidem.
  rewrite (setitem_getitem_id an a1 d1) by done. rewrite Hu.
  by rewrite str_crop_cell.
Qed.

(** C8, as the code has it. After a call that returned normally, a second
    call returns normally as well and leaves the magnitude column as it is.
    It leaves the whole frame as it is when every cell of the categorical
    column is a value of [values_to_rename] and these values are stable
    under the correction: already stripped, and not themselves keys mapped
    to something else. The labels are taken distinct. *)
Theorem apply_corrections_idempotent {Engine} (self self1 : Processor Engine)
    d cn an :
  df self = Some d ->
  NoDup (columns d) ->
  apply_corrections cn an self = (self1, Ok tt) ->
  exists d1 d2,
    df self1 = Some d1
    /\ apply_corrections cn an self1 = (with_df (Some d2) self1, Ok tt)
    /\ getitem an d2 = getitem an d1
    /\ (range_stable (values_to_rename self) ->
        (forall s1, getitem cn d1 = Ok s1 ->
                    in_range (values_to_rename self) s1) ->
        d2 = d1).
Proof.
  intros Hd Hnd Hrun.
  destruct (apply_corrections_again self self1 d cn an Hd Hnd Hrun)
    as (d1 & u & -> & Hnd1 & Hu & Hrun2).
  set (v2r := values_to_rename self) in *.
  exists d1, (setitem cn (crop_cell v2r <$> (crop_cell v2r <$> u)) d1).
  split; [done|]. split; [exact Hrun2|]. split.
  - destruct (decide (cn = an)) as [->|Hne]; [|by rewrite getitem_setitem_ne].
    destruct (apply_corrections_after self _ d an an Hd Hnd Hrun)
      as (d1' & u' & a1 & Heq & _ & _ & _ & Ha1 & _ & _ & Hnil).
    assert (d1' = d1) as ->.
    { unfold with_df in Heq. by injection Heq as ->. }
    rewrite getitem_setitem_eq, Ha1. f_equal.
    assert (crop_cell v2r <$> u = a1) as -> by congruence.
    by rewrite Hnil.
  - intros Hst Hrange. rewrite (crop_cell_in_range v2r _ Hst (Hrange _ Hu)).
    by apply setitem_getitem_id.
Qed.

Lemma apply_corrections_idempotent_witness :
  exists d1, df (apply_corrections "Crop_type" "Elevation"
                   (holding params survey_renamed)).1 = Some d1
             /\ getitem "Elevation"
                  <$> df (apply_corrections "Crop_type" "Elevation"
                            (apply_corrections "Crop_type" "Elevation"
                               (holding params survey_renamed)).1).1
                = Some (getitem "Elevation" d1).
Proof.
  destruct (apply_corrections_idempotent (holding params survey_renamed)
              (apply_corrections "Crop_type" "Elevation"
                 (holding params survey_renamed)).1
              survey_renamed "Crop_type" "Elevation")
    as (d1 & d2 & Hd1 & Hrun2 & Hmag & _).
  - reflexivity.
  - by_compute.
  - vm_compute. reflexivity.
  - exists d1. split; [exact Hd1|]. rewrite Hrun2. simpl. by rewrite Hmag.
Defined.

(** C8, as stated, fails on the categorical column when a value of the dict
    is also one of its keys: after a first call every cell of [Crop_type]
    is a value of [values_to_rename] (here ["tea"], the correction of
    ["teaa"]), and the second call still changes it (to ["Tea"]). *)
Lemma apply_corrections_second_call_changes :
  let self1 := (apply_corrections "Crop_type" "Elevation"
                  (holding params_chain tea_fields)).1 in
  let self2 := (apply_corrections "Crop_type" "Elevation" self1).1 in
  (getitem "Crop_type" <$> df self1) = Some (Ok [VStr "tea"])
  /\ values_to_rename self1 !! "teaa" = Some "tea"
  /\ (getitem "Crop_type" <$> df self2) = Some (Ok [VStr "Tea"])
  /\ (apply_corrections "Crop_type" "Elevation" self1).2 = Ok tt.
Proof. vm_compute. repeat split; reflexivity. Qed.

End ApplyCorrections.

(** ** The left join *)

Module MergeFacts.
Import Pandas FieldDataProcessor Statements FrameFacts.

Lemma matches_not_elem k (rkeys : Series) j : k ∉ rkeys -> matches k rkeys j = [].
Proof.
  revert j. induction rkeys as [|k' r IH]; intros j Hk; [done|].
  apply not_elem_of_cons in Hk as [Hne Hk]. simpl.
  rewrite decide_False by done. auto.
Qed.

(** With distinct right keys a left key has no match or exactly one. *)
Lemma matches_unique k (rkeys : Series) j :
  NoDup rkeys ->
  (matches k rkeys j = [] /\ (k ∉ rkeys))
  \/ (exists q, matches k rkeys j = [(j + q)%nat] /\ rkeys !! q = Some k).
Proof.
  revert j. induction rkeys as [|k' r IH]; intros j Hnd.
  - left. split; [done|]. apply not_elem_of_nil.
  - apply NoDup_cons in Hnd as [Hk' Hnd]. simpl.
    destruct (decide (k' = k)) as [->|Hne].
    + right. exists O. rewrite matches_not_elem by done.
      split; [|done]. f_equal. lia.
    + destruct (IH (S j) Hnd) as [[-> Hk]|(q & -> & Hq)].
      * left. split; [done|]. by apply not_elem_of_cons.
      * right. exists (S q). split; [|done]. f_equal. lia.
Qed.



Lemma select_two l1 l2 (d : DataFrame) s1 s2 :
  getitem l1 d = Ok s1 -> getitem l2 d = Ok s2 ->
  select [l1; l2] d = Ok [(l1, s1); (l2, s2)].
Proof. intros H1 H2. unfold select. simpl. by rewrite H1, H2. Qed.

(** A left key has no match exactly when it is no right key. *)
Lemma matches_nil k (rkeys : Series) j : matches k rkeys j = [] <-> k ∉ rkeys.
Proof.
  split; [|apply matches_not_elem].
  revert j. induction rkeys as [|k' r IH]; intros j; [intros _; apply not_elem_of_nil|].
  simpl. case_decide as Hk; [discriminate|].
  intros H. apply not_elem_of_cons. split; [done|]. by eapply IH.
Qed.

Lemma unmatched_app (ix1 ix2 : list (nat * option nat)) :
  unmatched (ix1 ++ ix2) = (unmatched ix1 || unmatched ix2)%bool.
Proof. unfold unmatched. apply existsb_app. Qed.

(** Some pair of the indexer has no right row exactly when some left key is
    no right key. *)
Lemma unmatched_left_indexer (lkeys rkeys : Series) i :
  unmatched (left_indexer lkeys rkeys i) = some_unmatched lkeys rkeys.
Proof.
  revert i. induction lkeys as [|k l IH]; intros i; [done|].
  simpl. rewrite unmatched_app, IH. f_equal.
  destruct (matches k rkeys 0) as [|j js] eqn:E.
  - apply matches_nil in E. simpl. by rewrite bool_decide_eq_true_2.
  - assert (k ∈ rkeys) as Hin.
    { destruct (decide (k ∈ rkeys)) as [|Hn]; [done|].
      apply (matches_nil k rkeys 0) in Hn. congruence. }
    rewrite bool_decide_eq_false_2 by (intros H; by apply H).
    assert (forall l0 : list nat,
              unmatched ((fun j0 : nat => (i, Some j0)) <$> l0) = false) as Hs.
    { induction l0 as [|j0 l0 IH0]; [done|]. exact IH0. }
    apply (Hs (j :: js)).
Qed.

(** Keys of one kind pass the dtype check and are compared as they are. *)
Lemma int64_valued_string_like s :
  int64_valued s -> s <> [] -> string_like s = false.
Proof.
  intros H Hne. destruct H as [|v s Hv _]; [done|].
  unfold string_like. destruct (dtype_of (v :: s)); try done.
  simpl. by destruct v.
Qed.

Lemma string_valued_numeric_dtype s :
  string_valued s -> s <> [] -> numeric_dtype s = false.
Proof.
  intros H Hne. destruct H as [|v s Hv _]; [done|].
  unfold numeric_dtype. rewrite SeriesFacts.existsb_is_str_object; [done|].
  simpl. by rewrite Hv.
Qed.

Lemma same_kind_mismatch (lkeys rkeys : Series) :
  same_kind lkeys rkeys -> key_mismatch lkeys rkeys = false.
Proof.
  intros H. unfold key_mismatch.
  destruct lkeys as [|k l]; [done|]. destruct rkeys as [|k' r]; [done|].
  destruct H as [[Hl Hr]|[Hl Hr]].
  - rewrite !int64_valued_string_like by done.
    by rewrite andb_false_r.
  - rewrite !string_valued_numeric_dtype by done.
    by rewrite andb_false_r.
Qed.

Lemma norm_key_int64_valued s : int64_valued s -> norm_key <$> s = s.
Proof.
  induction 1 as [|v s Hv _ IH]; [done|].
  rewrite fmap_cons, IH. f_equal. by destruct v.
Qed.

Lemma norm_key_string_valued s : string_valued s -> norm_key <$> s = s.
Proof.
  induction 1 as [|v s Hv _ IH]; [done|].
  rewrite fmap_cons, IH. f_equal. by destruct v.
Qed.

Lemma norm_key_same_kind (lkeys rkeys : Series) :
  same_kind lkeys rkeys ->
  norm_key <$> lkeys = lkeys /\ norm_key <$> rkeys = rkeys.
Proof.
  intros [[Hl Hr]|[Hl Hr]].
  - by rewrite !norm_key_int64_valued.
  - by rewrite !norm_key_string_valued.
Qed.


(** Two columns of a well-formed frame have the same length. *)
Lemma wf_frame_lengths (d : DataFrame) l1 l2 (s1 s2 : Series) :
  wf_frame d -> getitem l1 d = Ok s1 -> getitem l2 d = Ok s2 ->
  List.length s2 = List.length s1.
Proof.
  intros [_ Hrect] H1 H2. rewrite Forall_forall in Hrect.
  apply getitem_Ok_elem in H1, H2.
  pose proof (Hrect _ H1) as E1. pose proof (Hrect _ H2) as E2.
  simpl in E1, E2. congruence.
Qed.

End MergeFacts.

(** ** [weather_station_mapping] *)

Module WeatherStationMapping.
Import Pandas FieldDataProcessor Statements FrameFacts MergeFacts Examples.




(** A lookup that fails to arrive, or lacks a column, or does not join,
    leaves the frame as it is. *)
Lemma weather_station_mapping_Raise {Engine}
    (read_from_web_CSV : string -> result DataFrame)
    (self self' : Processor Engine) e :
  weather_station_mapping read_from_web_CSV self = (self', Raise e) ->
  df self' = df self.
Proof.
  unfold weather_station_mapping, bind, attr, emit, lift, get_df, set_df.
  simpl. destruct (read_from_web_CSV _) as [wsd|e1]; [|by intros [= <- _]].
  simpl. destruct (df self) as [d|] eqn:Hd; [|by intros [= <- _]].
  destruct (select _ wsd) as [sel|e2]; [|by intros [= <- _]].
  destruct (merge_left d sel _) as [m|e3]; [discriminate|by intros [= <- _]].
Qed.

End WeatherStationMapping.

(** ** [process] *)

Module Process.
Import Pandas FieldDataProcessor Statements FrameFacts SeriesFacts Examples.

(** A failed load leaves the frame as it was; the exception is the
    collaborator's. *)
Lemma ingest_sql_data_Raise {Engine} create query (self self' : Processor Engine) e :
  ingest_sql_data create query self = (self', Raise e) ->
  df self' = df self
  /\ (create (db_path self) = Raise e
      \/ exists eng, create (db_path self) = Ok eng
                     /\ query eng (sql_query self) = Raise e).
Proof.
  unfold ingest_sql_data, bind, attr, emit, lift, set_engine, set_df,
    logger_info, emit, ret. simpl.
  destruct (create (db_path self)) as [eng|e1] eqn:Hc; simpl.
  - destruct (query eng (sql_query self)) as [d|e2] eqn:Hq; simpl;
      [discriminate|].
    intros [= <- <-]. split; [done|]. right. eauto.
  - intros [= <- <-]. split; [done|]. by left.
Qed.

(** A load that returns has called both collaborators once, in order, and
    logged its line. *)
Lemma ingest_sql_data_Ok {Engine} create query (self self' : Processor Engine) r :
  ingest_sql_data create query self = (self', Ok r) ->
  exists eng,
    create (db_path self) = Ok eng
    /\ query eng (sql_query self) = Ok r
    /\ self' = with_trace (trace self ++ [CallCreateDbEngine (db_path self);
                                         CallQueryData (sql_query self);
                                         LogInfo "Sucessfully loaded data."])
                 (with_df (Some r) (with_engine (Some eng) self)).
Proof.
  unfold ingest_sql_data, bind, attr, emit, lift, set_engine, set_df,
    logger_info, emit, ret. simpl.
  destruct (create (db_path self)) as [eng|e1] eqn:Hc; simpl; [|discriminate].
  destruct (query eng (sql_query self)) as [d|e2] eqn:Hq; simpl; [|discriminate].
  intros [= <- <-]. exists eng. split; [done|]. split; [done|].
  unfold with_trace, with_df, with_engine. simpl.
  by rewrite <- !app_assoc.
Qed.

Lemma rename_columns_Raise {Engine} (self self' : Processor Engine) e :
  rename_columns self = (self', Raise e) -> df self' = df self.
Proof.
  unfold rename_columns, bind, attr, lift, logger_info, emit, get_df, set_df.
  destruct (columns_to_rename self) as [|[c1 c2] rest]; simpl;
    [by intros [= <- _]|].
  destruct (df self) as [d|] eqn:Hd; [|by intros [= <- _]].
  destruct (temp_name_for (columns d)) as [t|e1]; [discriminate|].
  by intros [= <- _].
Qed.

Lemma rename_columns_Ok {Engine} (self self' : Processor Engine) :
  rename_columns self = (self', Ok tt) ->
  exists c1 c2 d',
    self' = with_df (Some d')
              (with_trace (trace self ++ [LogInfo (swapped_message c1 c2)]) self).
Proof.
  unfold rename_columns, bind, attr, lift, logger_info, emit, get_df, set_df.
  destruct (columns_to_rename self) as [|[c1 c2] rest]; simpl; [discriminate|].
  destruct (df self) as [d|] eqn:Hd; [|discriminate].
  destruct (temp_name_for (columns d)) as [t|e1]; [|discriminate].
  simpl. intros [= <-]. exists c1, c2. eexists. reflexivity.
Qed.

(** [apply_corrections] writes nothing but the frame; when it raises, the
    frame is as before or has its magnitudes already corrected. *)
Lemma apply_corrections_state {Engine} (self : Processor Engine) cn an :
  exists od, (apply_corrections cn an self).1 = with_df od self
             /\ (df self = None -> od = None).
Proof.
  destruct (df self) as [d|] eqn:Hd.
  - rewrite (ApplyCorrections.apply_corrections_run self d cn an Hd).
    assert (self = with_df (Some d) self) as Hself.
    { destruct self. simpl in Hd. by subst. }
    repeat case_match; simpl;
      (eexists (Some _); split; [first [reflexivity|exact Hself]|congruence]).
  - exists None. split; [|done].
    unfold apply_corrections, bind, get_df. rewrite Hd. simpl.
    destruct self. simpl in Hd. by subst.
Qed.

Lemma apply_corrections_Raise {Engine} (self self' : Processor Engine) cn an e :
  apply_corrections cn an self = (self', Raise e) ->
  df self' = df self
  \/ exists d s, df self = Some d /\ getitem an d = Ok s /\ numbers s
                 /\ df self' = Some (setitem an (abs_cell <$> s) d).
Proof.
  destruct (df self) as [d|] eqn:Hd.
  - rewrite (ApplyCorrections.apply_corrections_run self d cn an Hd).
    destruct (getitem an d) as [s|e1] eqn:Hs; [|by intros [= <- _]; left].
    destruct (abs s) as [a|e2] eqn:Ha; [|by intros [= <- _]; left].
    apply abs_Ok in Ha as [Hfree ->].
    destruct (getitem cn _) as [s1|e3];
      [|intros [= <- _]; right; by exists d, s].
    destruct (str s1) as [?|e4]; [discriminate|].
    intros [= <- _]; right; by exists d, s.
  - unfold apply_corrections, bind, get_df. rewrite Hd.
    intros [= <- _]. by left.
Qed.

Lemma weather_station_mapping_Ok {Engine} read (self self' : Processor Engine) :
  weather_station_mapping read self = (self', Ok tt) ->
  exists m,
    self' = with_df (Some m)
              (with_trace
                 (trace self ++ [CallReadFromWebCSV (weather_map_data self)])
                 self).
Proof.
  unfold weather_station_mapping, bind, attr, emit, lift, get_df, set_df.
  simpl. destruct (read _) as [wsd|e1]; [|discriminate].
  simpl. destruct (df self) as [d|] eqn:Hd; [|discriminate].
  destruct (select _ wsd) as [sel|e2]; [|discriminate].
  destruct (merge_left d sel _) as [m|e3]; [|discriminate].
  intros [= <-]. by exists m.
Qed.

(** C6, as the code has it. [process] runs [ingest_sql_data],
    [rename_columns], [apply_corrections] (on [Crop_type] and [Elevation])
    and [weather_station_mapping], each once, each from the state the one
    before left. The first step that raises ends the run: [process] raises
    that very exception and the object stays as that step left it, so no
    later step has run. A load, a renaming or a station mapping that raises
    leaves the frame as the step before produced it; [apply_corrections]
    writes in place, and when it raises the frame is as before or already
    has its magnitude column corrected. When no step raises, the
    collaborators have been called once each, in the order of the steps. *)
Theorem process_steps {Engine} create query read (self : Processor Engine) :
  match ingest_sql_data create query self with
  | (s1, Raise e) =>
      process create query read self = (s1, Raise e) /\ df s1 = df self
  | (s1, Ok _) =>
      match rename_columns s1 with
      | (s2, Raise e) =>
          process create query read self = (s2, Raise e) /\ df s2 = df s1
      | (s2, Ok _) =>
          match apply_corrections "Crop_type" "Elevation" s2 with
          | (s3, Raise e) =>
              process create query read self = (s3, Raise e)
              /\ (df s3 = df s2
                  \/ exists d s,
                       df s2 = Some d
                       /\ getitem "Elevation" d = Ok s
                       /\ df s3 = Some (setitem "Elevation" (abs_cell <$> s) d))
          | (s3, Ok _) =>
              match weather_station_mapping read s3 with
              | (s4, Raise e) =>
                  process create query read self = (s4, Raise e)
                  /\ df s4 = df s3
              | (s4, Ok _) =>
                  process create query read self = (s4, Ok tt)
                  /\ exists c1 c2,
                       trace s4
                       = trace self
                         ++ [CallCreateDbEngine (db_path self);
                             CallQueryData (sql_query self);
                             LogInfo "Sucessfully loaded data.";
                             LogInfo (swapped_message c1 c2);
                             CallReadFromWebCSV (weather_map_data self)]
              end
          end
      end
  end.
Proof.
  rewrite RenameColumns.process_unfold.
  destruct (ingest_sql_data create query self) as [s1 [r|e]] eqn:H1.
  2:{ split; [done|]. by apply ingest_sql_data_Raise in H1 as [? _]. }
  destruct (rename_columns s1) as [s2 [[]|e]] eqn:H2.
  2:{ split; [done|]. by apply rename_columns_Raise in H2. }
  destruct (apply_corrections "Crop_type" "Elevation" s2) as [s3 [[]|e]] eqn:H3.
  2:{ split; [done|].
      apply apply_corrections_Raise in H3 as [?|(d & s & ? & ? & _ & ?)];
        [by left|right; by exists d, s]. }
  destruct (weather_station_mapping read s3) as [s4 [[]|e]] eqn:H4.
  2:{ split; [done|].
      by apply WeatherStationMapping.weather_station_mapping_Raise in H4. }
  split; [done|].
  destruct (apply_corrections_state s2 "Crop_type" "Elevation")
    as (od & Hs3 & _).
  rewrite H3 in Hs3. simpl in Hs3.
  apply ingest_sql_data_Ok in H1 as (eng & _ & _ & ->).
  apply rename_columns_Ok in H2 as (c1 & c2 & d' & ->).
  subst s3.
  apply weather_station_mapping_Ok in H4 as (m & ->).
  exists c1, c2. simpl. by rewrite <- !app_assoc.
Qed.

(** The pipeline on the sample survey: labels exchanged, elevation and crop
    corrected, stations joined, field 5 without station and the station
    numbers turned into floats for that. *)
Example process_survey :
  let run := process engine_ok (query_returns survey) (csv_returns stations)
               (init params) in
  run.2 = Ok tt
  /\ df run.1
     = Some [ ("Field_ID", [VNum 1; VNum 2; VNum 5]);
              ("Elevation", [VNum 120; VNum 35; VNum 0]);
              ("Crop_type", [VStr "Maize"; VStr "cassava"; VStr "tea"]);
              ("Annual_yield", [VNum 7; VNum 3; VNum 4]);
              ("Weather_station", [VFloat (float_of_int 0);
                                   VFloat (float_of_int 4); VFloat nan]) ].
Proof. vm_compute. split; reflexivity. Qed.

(** No engine: nothing else is attempted. *)
Example process_engine_fails :
  let run := process engine_fails (query_returns survey) (csv_returns stations)
               (init params) in
  run.2 = Raise (ExternalError "unable to open database file")
  /\ df run.1 = None
  /\ trace run.1 = [CallCreateDbEngine "sqlite:///farm.db"].
Proof. vm_compute. repeat split; reflexivity. Qed.

(** No query result: the frame stays unset. *)
Example process_query_fails :
  let run := process engine_ok query_fails (csv_returns stations)
               (init params) in
  run.2 = Raise (ExternalError "no such table")
  /\ df run.1 = None
  /\ trace run.1 = [CallCreateDbEngine "sqlite:///farm.db";
                    CallQueryData "SELECT * FROM fields"].
Proof. vm_compute. repeat split; reflexivity. Qed.

(** No lookup table: the frame is renamed and corrected, not joined. *)
Example process_csv_fails :
  let run := process engine_ok (query_returns survey) csv_fails (init params) in
  run.2 = Raise (ExternalError "HTTP Error 404")
  /\ df run.1
     = Some [ ("Field_ID", [VNum 1; VNum 2; VNum 5]);
              ("Elevation", [VNum 120; VNum 35; VNum 0]);
              ("Crop_type", [VStr "Maize"; VStr "cassava"; VStr "tea"]);
              ("Annual_yield", [VNum 7; VNum 3; VNum 4]) ].
Proof. vm_compute. split; reflexivity. Qed.

(** C6, as stated, fails in its last part. The load [no_crop] has no
    [Crop_type] column. The load and the renaming return normally, the
    renaming leaving the frame as loaded; [apply_corrections] then raises
    [KeyError], which [process] passes on; but the frame is no longer the
    one the renaming left: its elevations have been replaced. *)
Lemma process_partial_corrections :
  let loaded := (ingest_sql_data engine_ok (query_returns no_crop)
                   (init params)).1 in
  let run := process engine_ok (query_returns no_crop) (csv_returns stations)
               (init params) in
  (rename_columns loaded).2 = Ok tt
  /\ df (rename_columns loaded).1 = Some no_crop
  /\ run.2 = Raise (KeyError "Crop_type")
  /\ df run.1 = Some [ ("Field_ID", [VNum 1; VNum 2]);
                       ("Elevation", [VNum 7; VNum 12]);
                       ("Soil_type", [VStr "Loamy"; VStr "Sandy"]) ]
  /\ df run.1 <> df (rename_columns loaded).1.
Proof.
  vm_compute. repeat split; try reflexivity. discriminate.
Qed.

End Process.

(** ** Well-formed frames along the pipeline

    The statements on [apply_corrections] and [weather_station_mapping] ask
    for distinct labels. A frame that is well formed when loaded is still so
    after [rename_columns] and after [apply_corrections], however these
    calls end. *)

Module Invariant.
Import Pandas FieldDataProcessor Statements FrameFacts SeriesFacts.

Lemma relabel_inj_on c1 c2 t (cols : list string) x y :
  t ∉ cols -> x ∈ cols -> y ∈ cols ->
  relabel c1 c2 t x = relabel c1 c2 t y -> x = y.
Proof.
  intros Ht Hx Hy. unfold relabel.
  repeat case_decide; subst; try congruence; intros; subst; done.
Qed.

Lemma wf_frame_relabel (f : string -> string) (d : DataFrame) :
  (forall x y, x ∈ columns d -> y ∈ columns d -> f x = f y -> x = y) ->
  wf_frame d -> wf_frame ((fun c => (f c.1, c.2)) <$> d).
Proof.
  intros Hinj [Hnd Hrect]. split.
  - rewrite RenameColumns.columns_relabel. by apply NoDup_fmap_2_strong.
  - apply Forall_fmap.
    assert (nrows ((fun c : string * Series => (f c.1, c.2)) <$> d) = nrows d)
      as -> by by destruct d as [|[n c] d].
    eapply Forall_impl; [exact Hrect|]. done.
Qed.

Lemma rename_columns_wf {Engine} (self : Processor Engine) d :
  df self = Some d ->
  wf_frame d ->
  exists d', df (rename_columns self).1 = Some d' /\ wf_frame d'.
Proof.
  intros Hd Hwf.
  destruct (columns_to_rename self) as [|[c1 c2] rest] eqn:Hc.
  - exists d. split; [|done].
    unfold rename_columns, bind, attr, lift. by rewrite Hc.
  - destruct (RenameFacts.rename_columns_run self c1 c2 rest d Hc Hd)
      as [t [Ht ->]].
    destruct (RenameFacts.temp_name_for_fresh (columns d))
      as [t' [Ht' [Hfresh _]]].
    assert (t' = t) as -> by congruence.
    eexists. split; [reflexivity|]. apply wf_frame_relabel; [|done].
    intros x y Hx Hy. by apply (relabel_inj_on c1 c2 t (columns d)).
Qed.

Lemma kept_outside_columns touched (d d' : DataFrame) :
  kept_outside touched d d' -> columns d' = columns d.
Proof.
  intros [Hlen Hpos]. apply list_eq. intros i. unfold columns.
  rewrite !list_lookup_fmap.
  destruct (d !! i) as [c|] eqn:Hi.
  - destruct (Hpos i c Hi) as (c' & -> & Hn & _). simpl. by rewrite Hn.
  - rewrite (lookup_ge_None_2 d'); [done|].
    apply lookup_ge_None_1 in Hi. lia.
Qed.

Lemma kept_outside_wf touched (d d' : DataFrame) :
  kept_outside touched d d' -> wf_frame d -> wf_frame d'.
Proof.
  intros Hk [Hnd Hrect]. split.
  - by rewrite (kept_outside_columns _ _ _ Hk).
  - rewrite (kept_outside_nrows _ _ _ Hk). destruct Hk as [Hlen Hpos].
    apply Forall_lookup. intros i c' Hi'.
    destruct (lookup_lt_is_Some_2 d i) as [c Hi].
    { apply lookup_lt_Some in Hi'. lia. }
    destruct (Hpos i c Hi) as (c'' & Hi'' & _ & Hr & _).
    assert (c'' = c') as -> by congruence.
    rewrite Hr. rewrite Forall_lookup in Hrect. by apply (Hrect i).
Qed.

Lemma apply_corrections_wf {Engine} (self : Processor Engine) d cn an :
  df self = Some d ->
  wf_frame d ->
  exists d', df (apply_corrections cn an self).1 = Some d' /\ wf_frame d'.
Proof.
  intros Hd Hwf.
  rewrite (ApplyCorrections.apply_corrections_run self d cn an Hd).
  destruct (getitem an d) as [s|e] eqn:Hs; [|by exists d].
  destruct (abs s) as [a|e] eqn:Ha; [|by exists d].
  apply abs_Ok in Ha as [_ ->].
  assert (kept_outside [an] d (setitem an (abs_cell <$> s) d)) as Hk1.
  { eapply kept_outside_setitem; [apply Hwf|exact Hs| |repeat constructor].
    by rewrite length_fmap. }
  pose proof (kept_outside_wf _ _ _ Hk1 Hwf) as Hwf1.
  destruct (getitem cn _) as [s1|e] eqn:Hs1; [|by eexists].
  destruct (str s1) as [?|e]; [|by eexists].
  eexists. split; [reflexivity|].
  eapply (kept_outside_wf [cn]); [|exact Hwf1].
  eapply kept_outside_setitem; [apply Hwf1|exact Hs1| |repeat constructor].
  by rewrite length_fmap.
Qed.

End Invariant.

(** * Further properties *)

(** ** More on [rename_columns] *)

Module RenameColumnsMore.
Import Pandas FieldDataProcessor Statements MoreStatements PyStrFacts
  RenameFacts Examples MoreExamples.

(** A run of the loop that returns has tested fewer candidates than it had
    fuel, and all the candidates before the returned one are labels. *)
Lemma while_temp_name_first fuel cols t r :
  while_temp_name fuel cols t = Some r ->
  exists k, (k < fuel)%nat
            /\ r = t +:+ underscores k
            /\ (r ∉ cols)
            /\ forall j, (j < k)%nat -> t +:+ underscores j ∈ cols.
Proof.
  revert t. induction fuel as [|fuel IH]; intros t H; [discriminate|].
  simpl in H. destruct (decide (t ∈ cols)) as [Hin|Hin].
  - destruct (IH _ H) as (k & Hk & -> & Hr & Hbefore).
    exists (S k). split; [lia|]. rewrite <- append_underscores_S.
    split; [done|]. split; [done|].
    intros [|j] Hj; [by rewrite append_empty_r|].
    rewrite <- append_underscores_S. apply Hbefore. lia.
  - injection H as <-. exists O. split; [lia|].
    rewrite append_empty_r. split; [done|]. split; [done|]. intros j Hj. lia.
Qed.

(** X1. The placeholder search never fails, and what it returns is the
    shortest name of the form ["__temp_name_for_swap__"] plus underscores
    that is no label: every shorter one is a label, and the number of
    underscores is at most the number of labels. *)
Theorem temp_name_for_shortest (cols : list string) :
  exists k,
    temp_name_for cols = Ok (temp_base +:+ underscores k)
    /\ (k <= List.length cols)%nat
    /\ (temp_base +:+ underscores k ∉ cols)
    /\ forall j, (j < k)%nat -> temp_base +:+ underscores j ∈ cols.
Proof.
  unfold temp_name_for.
  destruct (while_temp_name_total cols "__temp_name_for_swap__") as [r Hr].
  rewrite Hr.
  destruct (while_temp_name_first _ _ _ _ Hr) as (k & Hk & -> & Hfresh & Hall).
  exists k. split; [done|]. split; [lia|]. done.
Qed.

(** X2. How [rename_columns] ends. With an empty [columns_to_rename] it
    raises [IndexError], logs nothing and leaves the object as it is. With
    an entry but no frame loaded it raises [AttributeError], after the
    line about the exchange has been logged. In every other case it
    returns normally: the placeholder loop always ends. *)
Theorem rename_columns_outcome {Engine} (self : Processor Engine) :
  match columns_to_rename self, df self with
  | [], _ => rename_columns self = (self, Raise IndexError)
  | (c1, c2) :: _, None =>
      rename_columns self
      = (with_trace (trace self ++ [LogInfo (swapped_message c1 c2)]) self,
         Raise AttributeError)
  | (c1, c2) :: _, Some d =>
      (rename_columns self).2 = Ok tt
      /\ trace (rename_columns self).1
         = trace self ++ [LogInfo (swapped_message c1 c2)]
  end.
Proof.
  destruct (columns_to_rename self) as [|[c1 c2] rest] eqn:Hc.
  - unfold rename_columns, bind, attr, lift. by rewrite Hc.
  - destruct (df self) as [d|] eqn:Hd.
    + destruct (rename_columns_run self c1 c2 rest d Hc Hd) as [t [_ ->]].
      done.
    + unfold rename_columns, bind, attr, lift, logger_info, emit, get_df.
      rewrite Hc. simpl. by rewrite Hd.
Qed.

(** X3. On a well-formed frame [rename_columns] keeps the frame well
    formed, whatever the configuration and however the call ends: distinct
    labels stay distinct (the exchange never makes two columns share a
    label), the number of columns and of rows is the same, and every column
    keeps its cells, in place. *)
Theorem rename_columns_keeps_shape {Engine} (self : Processor Engine) d :
  df self = Some d ->
  wf_frame d ->
  exists d',
    df (rename_columns self).1 = Some d'
    /\ wf_frame d'
    /\ List.length d' = List.length d
    /\ nrows d' = nrows d
    /\ d'.*2 = d.*2.
Proof.
  intros Hd Hwf.
  destruct (columns_to_rename self) as [|[c1 c2] rest] eqn:Hc.
  - exists d. split; [|done].
    unfold rename_columns, bind, attr, lift. by rewrite Hc.
  - destruct (rename_columns_run self c1 c2 rest d Hc Hd) as [t [Ht ->]].
    destruct (temp_name_for_fresh (columns d)) as [t' [Ht' [Hfresh _]]].
    assert (t' = t) as -> by congruence.
    eexists. split; [reflexivity|]. split.
    { apply Invariant.wf_frame_relabel; [|done].
      intros x y Hx Hy. by apply (Invariant.relabel_inj_on c1 c2 t (columns d)). }
    split; [by rewrite length_fmap|].
    split; [by destruct d as [|[n c] d0]|].
    apply RenameColumns.snd_relabel.
Qed.

Lemma rename_columns_keeps_shape_witness :
  exists d', df (rename_columns (holding params survey)).1 = Some d'
             /\ wf_frame d' /\ nrows d' = 3%nat.
Proof.
  destruct (rename_columns_keeps_shape (holding params survey) survey)
    as (d' & Hd' & Hwf & _ & Hrows & _).
  - reflexivity.
  - split; [by_compute|]. repeat constructor.
  - exists d'. split; [exact Hd'|]. split; [exact Hwf|]. exact Hrows.
Defined.

(** X4. An entry that maps a label to itself ([{c: c}]) makes the call a
    no-op on the frame: the dict of the first [rename] collapses to
    [{c: c}], and the second [rename] finds no placeholder to replace. *)
Theorem rename_columns_self_entry {Engine} (self : Processor Engine) c rest d :
  columns_to_rename self = (c, c) :: rest ->
  df self = Some d ->
  (rename_columns self).2 = Ok tt
  /\ df (rename_columns self).1 = Some d.
Proof.
  intros Hc Hd.
  destruct (rename_columns_run self c c rest d Hc Hd) as [t [_ ->]].
  split; [done|]. simpl. f_equal.
  rewrite <- (list_fmap_id d) at 2. apply list_fmap_ext.
  intros i [n s] _. simpl. f_equal. unfold relabel.
  repeat case_decide; congruence.
Qed.

Lemma rename_columns_self_entry_witness :
  df (rename_columns (holding params_self survey)).1 = Some survey.
Proof.
  apply (rename_columns_self_entry (holding params_self survey)
           "Elevation" [] survey); reflexivity.
Defined.

(** X5. Two calls in a row restore the frame on every frame, whether or
    not the two labels are present, as long as the first key is not itself
    of the placeholder form (["__temp_name_for_swap__"] plus underscores). *)
Theorem rename_columns_twice {Engine} (self : Processor Engine) c1 c2 rest d :
  columns_to_rename self = (c1, c2) :: rest ->
  df self = Some d ->
  (forall k, c1 <> temp_base +:+ underscores k) ->
  (rename_columns self).2 = Ok tt
  /\ (rename_columns (rename_columns self).1).2 = Ok tt
  /\ df (rename_columns (rename_columns self).1).1 = Some d.
Proof.
  intros Hc Hd Hshape.
  destruct (rename_columns_run self c1 c2 rest d Hc Hd) as [t [Ht Hrun]].
  destruct (temp_name_for_fresh (columns d)) as [t' [Ht' [_ [k Hk]]]].
  assert (t' = t) as -> by congruence.
  rewrite Hrun. simpl. split; [done|].
  set (d1 := (fun c => (relabel c1 c2 t c.1, c.2)) <$> d).
  set (self1 := with_df _ _).
  destruct (rename_columns_run self1 c1 c2 rest d1) as [u [Hu Hrun1]];
    [done..|].
  destruct (temp_name_for_fresh (columns d1)) as [u' [Hu' [_ [j Hj]]]].
  assert (u' = u) as -> by congruence.
  rewrite Hrun1. simpl. split; [done|]. f_equal.
  unfold d1. rewrite <- list_fmap_compose.
  rewrite <- (list_fmap_id d) at 2. apply list_fmap_ext.
  intros i [n s] _. simpl. f_equal.
  rewrite !RenameColumns.relabel_swap.
  - apply RenameColumns.swap_label_involutive.
  - rewrite Hk. apply Hshape.
  - rewrite Hj. apply Hshape.
Qed.

Lemma rename_columns_twice_witness :
  df (rename_columns (rename_columns (holding params_missing survey_renamed)).1).1
  = Some survey_renamed.
Proof.
  apply (rename_columns_twice (holding params_missing survey_renamed)
           "Yield" "Crop_type" [] survey_renamed).
  - reflexivity.
  - reflexivity.
  - intros k H. apply (f_equal String.length) in H.
    rewrite length_append, length_underscores in H. vm_compute in H. lia.
Defined.

End RenameColumnsMore.

(** ** More on [apply_corrections] *)

Module ApplyCorrectionsMore.
Import Pandas FieldDataProcessor Statements MoreStatements FrameFacts
  SeriesFacts Examples MoreExamples.

Lemma getitem_Raise label (d : DataFrame) e :
  getitem label d = Raise e -> e = KeyError label.
Proof.
  induction d as [|[n c] d IH]; simpl; [by intros [= <-]|].
  case_decide; [discriminate|done].
Qed.



(** Elevations that are [None]: the first line raises, nothing is
    corrected. *)
Example apply_corrections_none_elevation :
  apply_corrections "Crop_type" "Elevation" (holding params unread_fields)
  = (holding params unread_fields, Raise TypeError).
Proof. vm_compute. reflexivity. Qed.

(** Crops that are all NaN: the magnitudes are corrected, then the string
    accessor is refused. *)
Example apply_corrections_nan_crops :
  apply_corrections "Crop_type" "Elevation" (holding params uncropped_fields)
  = (with_df (Some (setitem "Elevation" [VNum 3; VNum 4] uncropped_fields))
       (holding params uncropped_fields),
     Raise AttributeError).
Proof. vm_compute. reflexivity. Qed.

(** X7. When the values of [values_to_rename] are stable under the
    correction (stripped already, and not keys mapped to something else),
    [apply_corrections] is idempotent on the whole object: after a call
    that returned normally, a second call returns normally and changes
    nothing, whatever the categorical column holds. The labels are taken
    distinct. *)
Theorem apply_corrections_stable_idempotent {Engine}
    (self self1 : Processor Engine) d cn an :
  df self = Some d ->
  NoDup (columns d) ->
  range_stable (values_to_rename self) ->
  apply_corrections cn an self = (self1, Ok tt) ->
  apply_corrections cn an self1 = (self1, Ok tt).
Proof.
  intros Hd Hnd Hst Hrun.
  destruct (ApplyCorrections.apply_corrections_again self self1 d cn an
              Hd Hnd Hrun) as (d1 & u & -> & Hnd1 & Hu & ->).
  f_equal. unfold with_df. simpl. do 2 f_equal.
  rewrite <- list_fmap_compose.
  rewrite (list_fmap_ext (crop_cell (values_to_rename self)
                            ∘ crop_cell (values_to_rename self))
             (crop_cell (values_to_rename self)) u).
  - by apply setitem_getitem_id.
  - intros i v _. by apply ApplyCorrections.crop_cell_idemp.
Qed.

Lemma params_range_stable :
  range_stable (values_to_rename (holding params survey_renamed)).
Proof.
  change (map_Forall
            (fun (_ : string) y =>
               PyStr.strip y = y
               /\ (values_to_rename (holding params survey_renamed) !! y = None
                   \/ values_to_rename (holding params survey_renamed) !! y
                      = Some y))
            (values_to_rename (holding params survey_renamed))).
  by_compute.
Qed.

Lemma apply_corrections_stable_idempotent_witness :
  apply_corrections "Crop_type" "Elevation"
    (apply_corrections "Crop_type" "Elevation"
       (holding params survey_renamed)).1
  = ((apply_corrections "Crop_type" "Elevation"
        (holding params survey_renamed)).1, Ok tt).
Proof.
  apply (apply_corrections_stable_idempotent (holding params survey_renamed)
           _ survey_renamed).
  - reflexivity.
  - by_compute.
  - exact params_range_stable.
  - vm_compute. reflexivity.
Defined.

End ApplyCorrectionsMore.

(** ** More on the join and on [weather_station_mapping] *)

Module WeatherStationMappingMore.
Import Pandas FieldDataProcessor Statements MoreStatements FrameFacts
  MergeFacts Examples MoreExamples.

Lemma length_matches k (rkeys : Series) j :
  List.length (matches k rkeys j) = key_count k rkeys.
Proof.
  unfold key_count. revert j.
  induction rkeys as [|k' r IH]; intros j; [done|]. simpl.
  destruct (decide (k' = k)) as [Hk|Hk].
  - rewrite filter_cons_True by done. simpl. by rewrite IH.
  - rewrite filter_cons_False by done. apply IH.
Qed.

(** The cells gathered on the matching lookup rows. *)
Lemma matches_cells k (rkeys col pre : Series) :
  List.length col = List.length rkeys ->
  (fun j => default VNull ((pre ++ col) !! j))
    <$> matches k rkeys (List.length pre)
  = matching_cells k rkeys col.
Proof.
  revert col pre. induction rkeys as [|k' r IH]; intros col pre Hlen.
  - by destruct col.
  - destruct col as [|v col]; [discriminate|]. simpl in Hlen.
    assert (pre ++ v :: col = (pre ++ [v]) ++ col) as Happ
      by by rewrite <- app_assoc.
    assert (S (List.length pre) = List.length (pre ++ [v])) as HS
      by (rewrite length_app; simpl; lia).
    simpl. destruct (decide (k' = k)) as [Hk|Hk].
    + rewrite fmap_cons. f_equal.
      * rewrite lookup_app_r by lia. by rewrite Nat.sub_diag.
      * rewrite Happ, HS. apply IH. lia.
    + rewrite Happ, HS. apply IH. lia.
Qed.

Lemma block_length k (rkeys : Series) (i : nat) :
  List.length (match matches k rkeys O with
               | [] => [(i, @None nat)]
               | js => (fun j : nat => (i, Some j)) <$> js
               end)
  = copies rkeys k.
Proof.
  unfold copies. rewrite <- (length_matches k rkeys O).
  destruct (matches k rkeys O) as [|j js]; [done|].
  rewrite length_fmap. simpl. lia.
Qed.

Lemma block_fst k (rkeys : Series) (i : nat) (p : nat * option nat) :
  p ∈ match matches k rkeys O with
      | [] => [(i, @None nat)]
      | js => (fun j : nat => (i, Some j)) <$> js
      end ->
  p.1 = i.
Proof.
  destruct (matches k rkeys O) as [|j js].
  - intros H. apply list_elem_of_singleton in H. by subst.
  - intros H. apply list_elem_of_fmap in H as (j' & -> & _). done.
Qed.

(** Gathering a left column along the indexer repeats each cell as often
    as its row has matches, once if it has none. *)
Lemma take_left_fanned (lkeys rkeys col pre : Series) :
  List.length col = List.length lkeys ->
  take_left (left_indexer lkeys rkeys (List.length pre)) (pre ++ col)
  = fanned lkeys rkeys col.
Proof.
  revert col pre. induction lkeys as [|k l IH]; intros col pre Hlen.
  - by destruct col.
  - destruct col as [|v col]; [discriminate|]. simpl in Hlen.
    unfold fanned. simpl. unfold take_left. rewrite fmap_app. f_equal.
    + rewrite <- (block_length k rkeys (List.length pre)).
      apply list_eq. intros q. rewrite list_lookup_fmap.
      destruct (_ !! q) as [p|] eqn:Hq; simpl.
      * assert (p.1 = List.length pre) as ->.
        { eapply block_fst. apply list_elem_of_lookup. eauto. }
        rewrite lookup_app_r by lia. rewrite Nat.sub_diag. simpl.
        rewrite lookup_replicate_2; [done|]. by apply lookup_lt_Some in Hq.
      * symmetry. apply lookup_replicate_None.
        by apply lookup_ge_None_1 in Hq.
    + assert (pre ++ v :: col = (pre ++ [v]) ++ col) as ->
        by by rewrite <- app_assoc.
      assert (S (List.length pre) = List.length (pre ++ [v])) as ->
        by (rewrite length_app; simpl; lia).
      apply IH. lia.
Qed.

Lemma gather_joined_cells (lkeys rkeys col : Series) (i : nat) :
  List.length col = List.length rkeys ->
  gather (left_indexer lkeys rkeys i) col = joined_cells lkeys rkeys col.
Proof.
  intros Hlen. revert i. induction lkeys as [|k l IH]; intros i; [done|].
  unfold joined_cells. simpl. unfold gather. rewrite fmap_app.
  f_equal; [|apply IH].
  assert ((fun j => default VNull (col !! j)) <$> matches k rkeys O
          = matching_cells k rkeys col) as Hcells
    by exact (matches_cells k rkeys col [] Hlen).
  rewrite <- Hcells.
  destruct (matches k rkeys O) as [|j js]; [done|].
  clear Hcells. rewrite !fmap_cons. simpl. f_equal.
  change (list_fmap nat (nat * option nat)%type (fun j0 : nat => (i, Some j0)) js)
    with ((fun j0 : nat => (i, Some j0)) <$> js).
  by rewrite <- list_fmap_compose.
Qed.

Lemma take_right_joined (lkeys rkeys col : Series) (i : nat) :
  List.length col = List.length rkeys ->
  take_right (left_indexer lkeys rkeys i) col = joined lkeys rkeys col.
Proof.
  intros Hlen. unfold take_right, joined.
  by rewrite unmatched_left_indexer, gather_joined_cells.
Qed.

Lemma length_fanned (lkeys rkeys col : Series) :
  List.length col = List.length lkeys ->
  List.length (fanned lkeys rkeys col) = sum_list (copies rkeys <$> lkeys).
Proof.
  revert col. induction lkeys as [|k l IH]; intros col Hlen.
  - by destruct col.
  - destruct col as [|v col]; [discriminate|]. simpl in Hlen.
    unfold fanned. simpl. rewrite length_app, length_replicate.
    f_equal. apply IH. lia.
Qed.

Lemma sum_copies_ge (lkeys rkeys : Series) :
  (List.length lkeys <= sum_list (copies rkeys <$> lkeys))%nat.
Proof.
  induction lkeys as [|k l IH]; [done|].
  change (S (List.length l)
          <= copies rkeys k + sum_list (copies rkeys <$> l))%nat.
  assert (1 <= copies rkeys k)%nat by (unfold copies; lia). lia.
Qed.

(** With distinct lookup keys every left row is copied once. *)
Lemma copies_NoDup (rkeys : Series) k : NoDup rkeys -> copies rkeys k = 1%nat.
Proof.
  intros Hnd. unfold copies. rewrite <- (length_matches k rkeys O).
  destruct (matches_unique k rkeys O Hnd) as [[-> _]|(q & -> & _)]; done.
Qed.

Lemma fanned_NoDup (lkeys rkeys col : Series) :
  NoDup rkeys -> List.length col = List.length lkeys ->
  fanned lkeys rkeys col = col.
Proof.
  intros Hnd. revert col. induction lkeys as [|k l IH]; intros col Hlen.
  - by destruct col.
  - destruct col as [|v col]; [discriminate|]. simpl in Hlen.
    unfold fanned. simpl. rewrite copies_NoDup by done. simpl. f_equal.
    apply IH. lia.
Qed.

(** The left join with a two-column lookup whose keys are of the kind of
    the frame's, with or without repeated lookup keys and with or without a
    shared label, when the suffixes create no label twice. *)
Lemma merge_left_general (d : DataFrame) on l2 (fk ws lk : Series) :
  on <> l2 ->
  Forall (fun c => List.length c.2 = nrows d) d ->
  getitem on d = Ok lk ->
  List.length ws = List.length fk ->
  same_kind lk fk ->
  (NoDup (columns d) ->
   NoDup (suffixed on (columns d) [on; l2] "_x" <$> columns d)) ->
  (forall n, n ∈ columns d ->
             suffixed on (columns d) [on; l2] "_x" n = l2 -> l2 ∈ columns d) ->
  (suffixed on [on; l2] (columns d) "_y" l2 ∈ columns d ->
   suffixed on [on; l2] (columns d) "_y" l2 = l2) ->
  merge_left d [(on, fk); (l2, ws)] on
  = Ok (((fun c => (suffixed on (columns d) [on; l2] "_x" c.1,
                    fanned lk fk c.2)) <$> d)
        ++ [(suffixed on [on; l2] (columns d) "_y" l2, joined lk fk ws)]).
Proof.
  intros Hne Hrect Hlk Hlen Hkind Hsfx Hcross_x Hcross_y.
  assert (List.length lk = nrows d) as Hrows.
  { apply getitem_Ok_elem in Hlk. rewrite Forall_forall in Hrect.
    apply (Hrect _ Hlk). }
  unfold merge_left. rewrite Hlk. simpl. rewrite decide_True by done. simpl.
  rewrite same_kind_mismatch by done.
  destruct (norm_key_same_kind lk fk Hkind) as [-> ->].
  assert ((fun c : string * Series =>
             (suffixed on (columns d) [on; l2] "_x" c.1,
              take_left (left_indexer lk fk O) c.2)) <$> d
          = (fun c => (suffixed on (columns d) [on; l2] "_x" c.1,
                       fanned lk fk c.2)) <$> d) as ->.
  { apply list_fmap_ext. intros i [n c] Hi. simpl. f_equal.
    rewrite Forall_lookup in Hrect. specialize (Hrect _ _ Hi). simpl in Hrect.
    apply (take_left_fanned lk fk c []). congruence. }
  rewrite filter_cons_False by (intros H; by apply H).
  rewrite filter_cons_True by done. rewrite filter_nil. simpl.
  rewrite take_right_joined by done.
  rewrite decide_True; [done|].
  assert (columns ((fun c : string * Series =>
                      (suffixed on (columns d) [on; l2] "_x" c.1,
                       fanned lk fk c.2)) <$> d)
          = suffixed on (columns d) [on; l2] "_x" <$> columns d) as ->.
  { unfold columns. by rewrite <- !list_fmap_compose. }
  split; [done|]. split; [intros _; apply NoDup_singleton|]. split.
  - apply Forall_fmap, Forall_forall. intros n Hn. simpl. intros H.
    apply list_elem_of_singleton in H. rewrite H. by eapply Hcross_x.
  - constructor; [|constructor]. intros H.
    apply list_elem_of_singleton. by apply Hcross_y.
Qed.

Lemma suffixed_fresh on (mine other : list string) sfx n :
  (n ∈ mine -> n ∉ other \/ n = on) -> suffixed on mine other sfx n = n.
Proof.
  intros H. unfold suffixed. rewrite decide_False; [done|].
  intros (Hn & Hm & Ho). destruct (H Hm); done.
Qed.

Lemma length_joined (lkeys rkeys col : Series) :
  List.length col = List.length rkeys ->
  List.length (joined lkeys rkeys col) = sum_list (copies rkeys <$> lkeys).
Proof.
  intros Hlen.
  assert (List.length (joined lkeys rkeys col)
          = List.length (joined_cells lkeys rkeys col)) as ->.
  { unfold joined. destruct (_ && _)%bool; by rewrite ?length_fmap. }
  rewrite <- (gather_joined_cells lkeys rkeys col O Hlen).
  rewrite <- (length_fanned lkeys rkeys lkeys eq_refl).
  rewrite <- (take_left_fanned lkeys rkeys lkeys [] eq_refl).
  unfold gather, take_left. by rewrite !length_fmap.
Qed.

(** The join with a lookup that shares no label but the key with the
    frame. *)
Lemma merge_left_fresh (d : DataFrame) on l2 (fk ws lk : Series) :
  on <> l2 ->
  wf_frame d ->
  l2 ∉ columns d ->
  getitem on d = Ok lk ->
  List.length ws = List.length fk ->
  same_kind lk fk ->
  merge_left d [(on, fk); (l2, ws)] on
  = Ok (((fun c => (c.1, fanned lk fk c.2)) <$> d)
        ++ [(l2, joined lk fk ws)]).
Proof.
  intros Hne [Hnd Hrect] Hfresh Hlk Hlen Hkind.
  assert (forall n, n ∈ columns d ->
            suffixed on (columns d) [on; l2] "_x" n = n) as Hsame.
  { intros n Hn. apply suffixed_fresh. intros _.
    destruct (decide (n = on)) as [->|Hn']; [by right|]. left.
    intros H. apply elem_of_cons in H as [->|H]; [done|].
    apply elem_of_cons in H as [->|H]; [done|]. by apply elem_of_nil in H. }
  assert (suffixed on [on; l2] (columns d) "_y" l2 = l2) as Hy.
  { apply suffixed_fresh. intros _. by left. }
  rewrite (merge_left_general d on l2 fk ws lk); try done.
  - rewrite Hy. do 2 f_equal. apply list_fmap_ext. intros i [n c] Hi.
    simpl. f_equal. apply Hsame. unfold columns. apply list_elem_of_fmap.
    exists (n, c). split; [done|]. apply list_elem_of_lookup; eauto.
  - intros _. rewrite (list_fmap_ext _ id (columns d)).
    + by rewrite list_fmap_id.
    + intros i n Hi. apply Hsame. apply list_elem_of_lookup; eauto.
  - intros n Hn. rewrite Hsame by done. by intros <-.
Qed.

Lemma columns_refill (g : Series -> Series) (d : DataFrame) :
  columns ((fun c => (c.1, g c.2)) <$> d) = columns d.
Proof.
  unfold columns. rewrite <- list_fmap_compose. by apply list_fmap_ext.
Qed.

(** The call on a frame that has the key and the lookup columns at hand. *)
Lemma weather_station_mapping_run {Engine}
    (read_from_web_CSV : string -> result DataFrame)
    (self : Processor Engine) d wsd (fk ws : Series) :
  df self = Some d ->
  read_from_web_CSV (weather_map_data self) = Ok wsd ->
  getitem "Field_ID" wsd = Ok fk ->
  getitem "Weather_station" wsd = Ok ws ->
  weather_station_mapping read_from_web_CSV self
  = match merge_left d [("Field_ID", fk); ("Weather_station", ws)] "Field_ID" with
    | Ok m =>
        (with_df (Some m)
           (with_trace
              (trace self ++ [CallReadFromWebCSV (weather_map_data self)])
              self), Ok tt)
    | Raise e =>
        (with_trace
           (trace self ++ [CallReadFromWebCSV (weather_map_data self)]) self,
         Raise e)
    end.
Proof.
  intros Hd Hread Hfk Hws.
  unfold weather_station_mapping, bind, attr, emit, lift, get_df, set_df.
  simpl. rewrite Hread, Hd. rewrite (select_two _ _ _ _ _ Hfk Hws).
  by destruct (merge_left d _ _).
Qed.

(** X8. The join as it is when the lookup table, a well-formed frame, may
    list a field several times. On a well-formed frame
    with at least one row, with a [Field_ID] column of the kind of the
    lookup's ([int64] or strings) and no [Weather_station] column, the
    lookup's [Weather_station] column being as pandas builds it, the call
    returns normally; every row of the frame comes out once per lookup row
    with its [Field_ID], or once if there is none, rows and copies in
    order; the new column holds the stations of those lookup rows, in
    lookup order, or NaN, all of them as floats when the lookup column is
    [int64] and some row has no match. So the row count is the sum of
    these numbers of copies, and never less than before: rows are
    multiplied, never dropped. *)
Theorem weather_station_mapping_fan_out {Engine}
    (read_from_web_CSV : string -> result DataFrame)
    (self : Processor Engine) d wsd (lk fk ws : Series) :
  df self = Some d ->
  wf_frame d ->
  "Weather_station" ∉ columns d ->
  getitem "Field_ID" d = Ok lk ->
  lk <> [] ->
  read_from_web_CSV (weather_map_data self) = Ok wsd ->
  wf_frame wsd ->
  getitem "Field_ID" wsd = Ok fk ->
  getitem "Weather_station" wsd = Ok ws ->
  typed ws = true ->
  same_kind lk fk ->
  weather_station_mapping read_from_web_CSV self
  = (with_df
       (Some (((fun c => (c.1, fanned lk fk c.2)) <$> d)
              ++ [("Weather_station", joined lk fk ws)]))
       (with_trace
          (trace self ++ [CallReadFromWebCSV (weather_map_data self)]) self),
     Ok tt)
  /\ nrows (((fun c => (c.1, fanned lk fk c.2)) <$> d)
            ++ [("Weather_station", joined lk fk ws)])
     = sum_list (copies fk <$> lk)
  /\ (nrows d <= sum_list (copies fk <$> lk))%nat.
Proof.
  intros Hd Hwf Hfresh Hlk _ Hread Hwsd Hfk Hws _ Hkind.
  pose proof (wf_frame_lengths wsd _ _ fk ws Hwsd Hfk Hws) as Hlen.
  pose proof Hwf as [Hnd Hrect].
  assert (List.length lk = nrows d) as Hrows.
  { apply getitem_Ok_elem in Hlk. rewrite Forall_forall in Hrect.
    apply (Hrect _ Hlk). }
  split; [|split].
  - rewrite (weather_station_mapping_run _ _ d wsd fk ws Hd Hread Hfk Hws).
    by rewrite (merge_left_fresh d "Field_ID" "Weather_station" fk ws lk).
  - destruct d as [|[n c] d0]; [discriminate|]. simpl.
    apply length_fanned. apply Forall_cons in Hrect as [Hc _]. simpl in Hc.
    simpl in Hrows. congruence.
  - rewrite <- Hrows. apply sum_copies_ge.
Qed.

Lemma weather_station_mapping_fan_out_witness :
  df (weather_station_mapping (csv_returns stations_twice)
        (holding params survey_renamed)).1
  = Some [ ("Field_ID", [VNum 1; VNum 1; VNum 2; VNum 5]);
           ("Elevation", [VNum (-120); VNum (-120); VNum 35; VNum 0]);
           ("Crop_type", [VStr "maize "; VStr "maize "; VStr "cassaval";
                          VStr " tea"]);
           ("Annual_yield", [VNum 7; VNum 7; VNum 3; VNum 4]);
           ("Weather_station", [VFloat (float_of_int 0);
                                VFloat (float_of_int 3);
                                VFloat (float_of_int 4); VFloat nan]) ].
Proof.
  destruct (weather_station_mapping_fan_out (csv_returns stations_twice)
              (holding params survey_renamed) survey_renamed stations_twice
              [VNum 1; VNum 2; VNum 5] [VNum 2; VNum 1; VNum 1]
              [VNum 4; VNum 0; VNum 3]) as (Hrun & _ & _).
  - reflexivity.
  - split; [by_compute|]. repeat constructor.
  - by_compute.
  - reflexivity.
  - discriminate.
  - reflexivity.
  - split; [by_compute|]. repeat constructor.
  - reflexivity.
  - reflexivity.
  - reflexivity.
  - left. split; repeat constructor.
  - rewrite Hrun. vm_compute. reflexivity.
Defined.

(** X9. Calling [weather_station_mapping] a second time (same lookup table,
    well formed, its [Weather_station] column as pandas builds it, distinct
    lookup keys of the kind of the frame's, a frame with at least one row
    and without columns [Weather_station_x] and [Weather_station_y]) does
    not refresh the [Weather_station] column: the join finds the label on
    both sides and suffixes it, so the frame ends
    with two equal columns [Weather_station_x] and [Weather_station_y] and
    has no column [Weather_station] any more. *)
Theorem weather_station_mapping_twice {Engine}
    (read_from_web_CSV : string -> result DataFrame)
    (self : Processor Engine) d wsd (lk fk ws : Series) :
  df self = Some d ->
  wf_frame d ->
  "Weather_station" ∉ columns d ->
  "Weather_station_x" ∉ columns d ->
  "Weather_station_y" ∉ columns d ->
  getitem "Field_ID" d = Ok lk ->
  lk <> [] ->
  read_from_web_CSV (weather_map_data self) = Ok wsd ->
  wf_frame wsd ->
  getitem "Field_ID" wsd = Ok fk ->
  getitem "Weather_station" wsd = Ok ws ->
  typed ws = true ->
  same_kind lk fk ->
  NoDup fk ->
  df (weather_station_mapping read_from_web_CSV self).1
  = Some (d ++ [("Weather_station", joined lk fk ws)])
  /\ (weather_station_mapping read_from_web_CSV
        (weather_station_mapping read_from_web_CSV self).1).2 = Ok tt
  /\ df (weather_station_mapping read_from_web_CSV
           (weather_station_mapping read_from_web_CSV self).1).1
     = Some (d ++ [("Weather_station_x", joined lk fk ws);
                   ("Weather_station_y", joined lk fk ws)])
  /\ getitem "Weather_station"
       (d ++ [("Weather_station_x", joined lk fk ws);
              ("Weather_station_y", joined lk fk ws)])
     = Raise (KeyError "Weather_station").
Proof.
  intros Hd Hwf Hfresh Hfresh_x Hfresh_y Hlk _ Hread Hwsd Hfk Hws _ Hkind Hkeys.
  pose proof (wf_frame_lengths wsd _ _ fk ws Hwsd Hfk Hws) as Hlen.
  pose proof Hwf as [Hnd Hrect].
  assert (List.length lk = nrows d) as Hrows.
  { apply getitem_Ok_elem in Hlk. rewrite Forall_forall in Hrect.
    apply (Hrect _ Hlk). }
  assert (List.length (joined lk fk ws) = nrows d) as HlenJ.
  { rewrite length_joined by done. rewrite <- Hrows.
    clear -Hkeys. induction lk as [|k l IH]; [done|].
    simpl. rewrite copies_NoDup by done. simpl. f_equal. apply IH. }
  set (J := joined lk fk ws) in *.
  assert (forall cols : list string, forall n, n ∈ columns d ->
            suffixed "Field_ID" cols ["Field_ID"; "Weather_station"] "_x" n = n)
    as Hsame.
  { intros cols n Hn. unfold suffixed. rewrite decide_False; [done|].
    intros (Hne & _ & H).
    apply elem_of_cons in H as [->|H]; [done|].
    apply elem_of_cons in H as [->|H]; [done|]. by apply elem_of_nil in H. }
  assert (forall (cols : list string) (d0 : DataFrame),
            Forall (fun c => c.1 ∈ columns d /\ List.length c.2 = nrows d) d0 ->
            (fun c => (suffixed "Field_ID" cols
                         ["Field_ID"; "Weather_station"] "_x" c.1,
                       fanned lk fk c.2)) <$> d0 = d0) as Hkeep.
  { intros cols d0 H0. rewrite <- (list_fmap_id d0) at 2.
    apply list_fmap_ext. intros i [n c] Hi. simpl.
    rewrite Forall_lookup in H0. destruct (H0 _ _ Hi) as [Hn Hc]. simpl in *.
    rewrite Hsame by done. rewrite fanned_NoDup; [done..|congruence]. }
  assert (Forall (fun c => c.1 ∈ columns d /\ List.length c.2 = nrows d) d)
    as Hall.
  { apply Forall_lookup. intros i [n c] Hi. split.
    - unfold columns. apply list_elem_of_fmap. exists (n, c). split; [done|].
      apply list_elem_of_lookup; eauto.
    - rewrite Forall_lookup in Hrect. apply (Hrect _ _ Hi). }
  (* the first call *)
  assert (merge_left d [("Field_ID", fk); ("Weather_station", ws)] "Field_ID"
          = Ok (d ++ [("Weather_station", J)])) as Hfirst.
  { rewrite (merge_left_fresh d "Field_ID" "Weather_station" fk ws lk);
      try done.
    do 2 f_equal. rewrite <- (list_fmap_id d) at 2.
    apply list_fmap_ext. intros i [n c] Hi. simpl. f_equal.
    rewrite Forall_lookup in Hrect. specialize (Hrect _ _ Hi). simpl in Hrect.
    apply fanned_NoDup; [done|congruence]. }
  rewrite (weather_station_mapping_run _ _ d wsd fk ws Hd Hread Hfk Hws).
  rewrite Hfirst. simpl.
  split; [done|].
  (* the second call *)
  set (d1 := d ++ [("Weather_station", J)]).
  set (self1 := with_df _ _).
  assert (nrows d1 = nrows d) as Hrows1.
  { unfold d1. destruct d as [|[n c] d0]; [discriminate|done]. }
  assert (columns d1 = columns d ++ ["Weather_station"]) as Hcols1.
  { unfold d1, columns. by rewrite fmap_app. }
  assert (suffixed "Field_ID" (columns d1)
            ["Field_ID"; "Weather_station"] "_x" "Weather_station"
          = "Weather_station_x") as Hx.
  { unfold suffixed. rewrite decide_True; [done|].
    split; [done|]. split.
    - rewrite Hcols1. apply elem_of_app. right. apply list_elem_of_here.
    - apply list_elem_of_further, list_elem_of_here. }
  assert (suffixed "Field_ID" ["Field_ID"; "Weather_station"]
            (columns d1) "_y" "Weather_station" = "Weather_station_y")
    as Hy.
  { unfold suffixed. rewrite decide_True; [done|].
    split; [done|]. split.
    - apply list_elem_of_further, list_elem_of_here.
    - rewrite Hcols1. apply elem_of_app. right. apply list_elem_of_here. }
  assert (merge_left d1 [("Field_ID", fk); ("Weather_station", ws)] "Field_ID"
          = Ok (d ++ [("Weather_station_x", J); ("Weather_station_y", J)]))
    as Hsecond.
  { rewrite (merge_left_general d1 "Field_ID" "Weather_station" fk ws lk);
      try done.
    - unfold d1 at 2. rewrite fmap_app. rewrite Hkeep by done. simpl.
      rewrite Hx, Hy. rewrite fanned_NoDup by (done || congruence).
      by rewrite <- app_assoc.
    - rewrite Hrows1. unfold d1. apply Forall_app. split; [done|].
      by constructor.
    - unfold d1. rewrite getitem_app_in; [done|].
      apply getitem_columns. eauto.
    - intros _. rewrite Hcols1 at 2. rewrite fmap_app. simpl. rewrite Hx.
      rewrite (list_fmap_ext _ id (columns d)).
      + rewrite list_fmap_id. apply NoDup_app. split; [done|].
        split; [|apply NoDup_singleton].
        intros n Hn H. apply list_elem_of_singleton in H. by subst.
      + intros i n Hi. apply Hsame. apply list_elem_of_lookup; eauto.
    - intros _ _ _. rewrite Hcols1. apply elem_of_app. right.
      apply list_elem_of_here.
    - rewrite Hy, Hcols1. intros H. exfalso.
      apply elem_of_app in H as [H|H]; [done|].
      apply list_elem_of_singleton in H. discriminate. }
  rewrite (weather_station_mapping_run _ self1 d1 wsd fk ws eq_refl Hread
             Hfk Hws).
  rewrite Hsecond. simpl. split; [done|]. split; [done|].
  apply getitem_not_columns. unfold columns. rewrite fmap_app. simpl.
  intros H. apply elem_of_app in H as [H|H]; [done|].
  apply elem_of_cons in H as [H|H]; [discriminate|].
  apply elem_of_cons in H as [H|H]; [discriminate|]. by apply elem_of_nil in H.
Qed.

Lemma weather_station_mapping_twice_witness :
  columns <$> df (weather_station_mapping (csv_returns stations)
                    (weather_station_mapping (csv_returns stations)
                       (holding params survey_renamed)).1).1
  = Some ["Field_ID"; "Elevation"; "Crop_type"; "Annual_yield";
          "Weather_station_x"; "Weather_station_y"].
Proof.
  destruct (weather_station_mapping_twice (csv_returns stations)
              (holding params survey_renamed) survey_renamed stations
              [VNum 1; VNum 2; VNum 5] [VNum 2; VNum 1; VNum 9]
              [VNum 4; VNum 0; VNum 3]) as (_ & _ & Hrun & _).
  - reflexivity.
  - split; [by_compute|]. repeat constructor.
  - by_compute.
  - by_compute.
  - by_compute.
  - reflexivity.
  - discriminate.
  - reflexivity.
  - split; [by_compute|]. repeat constructor.
  - reflexivity.
  - reflexivity.
  - reflexivity.
  - left. split; repeat constructor.
  - by_compute.
  - rewrite Hrun. reflexivity.
Defined.

(** With a column [Weather_station_y] already there, the suffix of the
    lookup's column would create that label a second time: the join is
    refused. *)
Example weather_station_mapping_suffix_clash :
  weather_station_mapping (csv_returns stations) (holding params survey_suffixed)
  = (with_trace [CallReadFromWebCSV "https://example.org/stations.csv"]
       (holding params survey_suffixed),
     Raise MergeError).
Proof. vm_compute. reflexivity. Qed.

(** X10. How [weather_station_mapping] ends when it does not join. The
    lookup table is fetched first, whatever the state of the object. If the
    fetch raises, that exception is raised; if no frame is loaded,
    [AttributeError]; if the lookup table lacks [Field_ID] or
    [Weather_station], or the frame lacks [Field_ID], [KeyError] with that
    label. In all these cases the object is as before, but for the record
    of the fetch. *)
Theorem weather_station_mapping_outcome {Engine}
    (read_from_web_CSV : string -> result DataFrame)
    (self : Processor Engine) :
  let fetched :=
    with_trace (trace self ++ [CallReadFromWebCSV (weather_map_data self)])
               self in
  match read_from_web_CSV (weather_map_data self) with
  | Raise e =>
      weather_station_mapping read_from_web_CSV self = (fetched, Raise e)
  | Ok wsd =>
      match df self with
      | None =>
          weather_station_mapping read_from_web_CSV self
          = (fetched, Raise AttributeError)
      | Some d =>
          match getitem "Field_ID" wsd, getitem "Weather_station" wsd with
          | Raise _, _ =>
              weather_station_mapping read_from_web_CSV self
              = (fetched, Raise (KeyError "Field_ID"))
          | Ok _, Raise _ =>
              weather_station_mapping read_from_web_CSV self
              = (fetched, Raise (KeyError "Weather_station"))
          | Ok fk, Ok ws =>
              match getitem "Field_ID" d with
              | Raise _ =>
                  weather_station_mapping read_from_web_CSV self
                  = (fetched, Raise (KeyError "Field_ID"))
              | Ok _ =>
                  weather_station_mapping read_from_web_CSV self
                  = match merge_left d [("Field_ID", fk);
                                        ("Weather_station", ws)] "Field_ID" with
                    | Ok m => (with_df (Some m) fetched, Ok tt)
                    | Raise e => (fetched, Raise e)
                    end
              end
          end
      end
  end.
Proof.
  intros fetched.
  destruct (read_from_web_CSV (weather_map_data self)) as [wsd|e] eqn:Hread.
  2:{ unfold weather_station_mapping, bind, attr, emit, lift. simpl.
      by rewrite Hread. }
  destruct (df self) as [d|] eqn:Hd.
  2:{ unfold weather_station_mapping, bind, attr, emit, lift, get_df. simpl.
      by rewrite Hread, Hd. }
  destruct (getitem "Field_ID" wsd) as [fk|e1] eqn:Hfk.
  2:{ assert (e1 = KeyError "Field_ID") as ->
        by (by apply ApplyCorrectionsMore.getitem_Raise in Hfk).
      unfold weather_station_mapping, bind, attr, emit, lift, get_df. simpl.
      rewrite Hread, Hd. unfold select. simpl. by rewrite Hfk. }
  destruct (getitem "Weather_station" wsd) as [ws|e2] eqn:Hws.
  2:{ unfold weather_station_mapping, bind, attr, emit, lift, get_df. simpl.
      assert (e2 = KeyError "Weather_station") as ->
        by (by apply ApplyCorrectionsMore.getitem_Raise in Hws).
      rewrite Hread, Hd. unfold select. simpl. rewrite Hfk. simpl.
      by rewrite Hws. }
  rewrite (weather_station_mapping_run _ _ d wsd fk ws Hd Hread Hfk Hws).
  destruct (getitem "Field_ID" d) as [lk|e3] eqn:Hlk; [done|].
  assert (e3 = KeyError "Field_ID") as ->
    by (by apply ApplyCorrectionsMore.getitem_Raise in Hlk).
  unfold merge_left. by rewrite Hlk.
Qed.

End WeatherStationMappingMore.

(** ** More on [process] *)

Module ProcessMore.
Import Pandas FieldDataProcessor Statements MoreStatements FrameFacts
  SeriesFacts Examples MoreExamples.

Lemma alike_refl {Engine} (s : Processor Engine) : alike s s.
Proof. by repeat split. Qed.

Lemma alike_history {Engine} (s s' : Processor Engine) :
  alike s s' -> s' = with_trace (trace s') s.
Proof.
  destruct s, s'. unfold alike, same_config, with_trace. simpl.
  intros ((-> & -> & -> & -> & ->) & -> & ->). done.
Qed.

Ltac leaf_alike := split; [done|]; by unfold alike, same_config.

(** The steps after the load read the configuration, the frame and the
    engine of the object, never its history. *)
Lemma rename_columns_history {Engine} (s : Processor Engine) t :
  (rename_columns (with_trace t s)).2 = (rename_columns s).2
  /\ alike (rename_columns s).1 (rename_columns (with_trace t s)).1.
Proof.
  unfold rename_columns, bind, attr, lift, logger_info, emit, get_df, set_df.
  simpl. destruct (columns_to_rename s) as [|[c1 c2] rest]; simpl;
    [leaf_alike|].
  destruct (df s) as [d|]; simpl; [|leaf_alike].
  destruct (temp_name_for (columns d)) as [u|e]; simpl; leaf_alike.
Qed.

Lemma apply_corrections_history {Engine} (s : Processor Engine) cn an t :
  (apply_corrections cn an (with_trace t s)).2 = (apply_corrections cn an s).2
  /\ alike (apply_corrections cn an s).1
           (apply_corrections cn an (with_trace t s)).1.
Proof.
  destruct (df s) as [d|] eqn:Hd.
  - rewrite (ApplyCorrections.apply_corrections_run s d cn an Hd).
    rewrite (ApplyCorrections.apply_corrections_run (with_trace t s) d cn an Hd).
    simpl. destruct (getitem an d) as [a|e]; [|leaf_alike].
    destruct (abs a) as [a'|e]; [|leaf_alike].
    destruct (getitem cn _) as [s1|e]; [|leaf_alike].
    destruct (str s1) as [?|e]; leaf_alike.
  - unfold apply_corrections, bind, get_df. simpl. rewrite Hd. leaf_alike.
Qed.

Lemma weather_station_mapping_history {Engine} read (s : Processor Engine) t :
  (weather_station_mapping read (with_trace t s)).2
  = (weather_station_mapping read s).2
  /\ alike (weather_station_mapping read s).1
           (weather_station_mapping read (with_trace t s)).1.
Proof.
  unfold weather_station_mapping, bind, attr, lift, emit, get_df, set_df.
  simpl. destruct (read (weather_map_data s)) as [wsd|e]; simpl; [|leaf_alike].
  destruct (df s) as [d|]; simpl; [|leaf_alike].
  destruct (select _ wsd) as [sel|e]; simpl; [|leaf_alike].
  destruct (merge_left d sel _) as [m|e]; simpl; leaf_alike.
Qed.

Lemma alike_trans {Engine} (s1 s2 s3 : Processor Engine) :
  alike s1 s2 -> alike s2 s3 -> alike s1 s3.
Proof.
  unfold alike, same_config. intros H1 H2.
  destruct H1 as ((? & ? & ? & ? & ?) & ? & ?).
  destruct H2 as ((? & ? & ? & ? & ?) & ? & ?).
  repeat split; congruence.
Qed.

(** The steps on two objects that are alike. *)
Lemma step_alike {Engine} (f : Processor Engine -> Processor Engine * result unit)
    (s s' : Processor Engine) :
  (forall s0 t, (f (with_trace t s0)).2 = (f s0).2
                /\ alike (f s0).1 (f (with_trace t s0)).1) ->
  alike s s' ->
  (f s').2 = (f s).2 /\ alike (f s).1 (f s').1.
Proof.
  intros Hf Hs. rewrite (alike_history s s' Hs). apply Hf.
Qed.

Ltac leaf_config := by unfold same_config.

Lemma same_config_trans {Engine} (s1 s2 s3 : Processor Engine) :
  same_config s1 s2 -> same_config s2 s3 -> same_config s1 s3.
Proof.
  unfold same_config. intros (? & ? & ? & ? & ?) (? & ? & ? & ? & ?).
  repeat split; congruence.
Qed.

Lemma ingest_sql_data_config {Engine} create query (s : Processor Engine) :
  same_config s (ingest_sql_data create query s).1.
Proof.
  unfold ingest_sql_data, bind, attr, emit, lift, set_engine, set_df,
    logger_info, emit, ret. simpl.
  destruct (create (db_path s)) as [eng|e]; simpl; [|leaf_config].
  destruct (query eng (sql_query s)) as [r|e]; simpl; leaf_config.
Qed.

Lemma rename_columns_config {Engine} (s : Processor Engine) :
  same_config s (rename_columns s).1.
Proof.
  unfold rename_columns, bind, attr, lift, logger_info, emit, get_df, set_df.
  destruct (columns_to_rename s) as [|[c1 c2] rest] eqn:Hc; simpl;
    [leaf_config|].
  destruct (df s) as [d|]; simpl; [|by unfold same_config].
  destruct (temp_name_for (columns d)) as [u|e]; simpl; by unfold same_config.
Qed.

Lemma apply_corrections_config {Engine} (s : Processor Engine) cn an :
  same_config s (apply_corrections cn an s).1.
Proof.
  destruct (Process.apply_corrections_state s cn an) as (od & -> & _).
  leaf_config.
Qed.

Lemma weather_station_mapping_config {Engine} read (s : Processor Engine) :
  same_config s (weather_station_mapping read s).1.
Proof.
  unfold weather_station_mapping, bind, attr, lift, emit, get_df, set_df.
  simpl. destruct (read (weather_map_data s)) as [wsd|e]; simpl;
    [|leaf_config].
  destruct (df s) as [d|]; simpl; [|leaf_config].
  destruct (select _ wsd) as [sel|e]; simpl; [|leaf_config].
  destruct (merge_left d sel _) as [m|e]; simpl; leaf_config.
Qed.

Lemma process_config {Engine} create query read (s : Processor Engine) :
  same_config s (process create query read s).1.
Proof.
  rewrite RenameColumns.process_unfold.
  pose proof (ingest_sql_data_config create query s) as H1.
  destruct (ingest_sql_data create query s) as [s1 [r|e]]; [|done].
  pose proof (rename_columns_config s1) as H2.
  destruct (rename_columns s1) as [s2 [[]|e]];
    [|by eapply same_config_trans].
  pose proof (apply_corrections_config s2 "Crop_type" "Elevation") as H3.
  destruct (apply_corrections "Crop_type" "Elevation" s2) as [s3 [[]|e]];
    [|eapply same_config_trans; [|exact H3]; by eapply same_config_trans].
  pose proof (weather_station_mapping_config read s3) as H4.
  eapply same_config_trans; [|exact H4].
  eapply same_config_trans; [|exact H3]. by eapply same_config_trans.
Qed.

(** Two runs from the same configuration. *)
Lemma process_same_run {Engine} create query read
    (self self' : Processor Engine) :
  same_config self self' ->
  (process create query read self').2 = (process create query read self).2
  /\ ((exists eng r, create (db_path self) = Ok eng
                     /\ query eng (sql_query self) = Ok r) ->
      df (process create query read self').1
      = df (process create query read self).1
      /\ engine (process create query read self').1
         = engine (process create query read self).1).
Proof.
  intros Hcfg. pose proof Hcfg as (Hp & Hq & _).
  rewrite !RenameColumns.process_unfold.
  unfold ingest_sql_data, bind, attr, emit, lift, set_engine, set_df,
    logger_info, emit, ret. simpl. rewrite <- Hp, <- Hq.
  destruct (create (db_path self)) as [eng|e] eqn:Hc; simpl.
  2:{ split; [done|]. intros (? & ? & ? & _). congruence. }
  destruct (query eng (sql_query self)) as [r|e] eqn:Hr; simpl.
  2:{ split; [done|]. intros (eng' & ? & Heng & Hr'). congruence. }
  match goal with
  | |- context [rename_columns ?x] =>
      match goal with
      | |- context [(match rename_columns ?y with _ => _ end).2
                    = (match rename_columns x with _ => _ end).2] =>
          set (s1 := x); set (s1' := y)
      end
  end.
  assert (alike s1 s1') as H1.
  { unfold s1, s1', alike, same_config. simpl.
    destruct Hcfg as (? & ? & ? & ? & ?). done. }
  destruct (step_alike rename_columns s1 s1' rename_columns_history H1)
    as [Hr2 H2].
  destruct (rename_columns s1) as [s2 [[]|e]],
           (rename_columns s1') as [s2' [[]|e']];
    simpl in Hr2, H2; try discriminate.
  2:{ split; [done|]. intros _. by destruct H2 as (_ & ? & ?). }
  destruct (step_alike (apply_corrections "Crop_type" "Elevation") s2 s2'
              (fun s0 t => apply_corrections_history s0 _ _ t) H2)
    as [Hr3 H3].
  destruct (apply_corrections "Crop_type" "Elevation" s2) as [s3 [[]|e]],
           (apply_corrections "Crop_type" "Elevation" s2') as [s3' [[]|e']];
    simpl in Hr3, H3; try discriminate.
  2:{ split; [done|]. intros _. by destruct H3 as (_ & ? & ?). }
  destruct (step_alike (weather_station_mapping read) s3 s3'
              (weather_station_mapping_history read) H3) as [Hr4 H4].
  split; [done|]. intros _. by destruct H4 as (_ & ? & ?).
Qed.

(** X11. What [process] does depends on the configuration and on what the
    collaborators answer, not on what the object held before: two objects
    with the same configuration end the run in the same way (same normal
    return or same exception), and once the load has succeeded they end it
    with the same frame and the same engine. A run never changes the
    configuration, so this applies to a second run on the same object:
    nothing accumulates from one run to the next. *)
Theorem process_ignores_prior_state {Engine} create query read
    (self self' : Processor Engine) :
  same_config self self' ->
  (process create query read self').2 = (process create query read self).2
  /\ ((exists eng r, create (db_path self) = Ok eng
                     /\ query eng (sql_query self) = Ok r) ->
      df (process create query read self').1
      = df (process create query read self).1
      /\ engine (process create query read self').1
         = engine (process create query read self).1)
  /\ same_config self (process create query read self).1.
Proof.
  intros Hcfg.
  destruct (process_same_run create query read self self' Hcfg) as [H1 H2].
  split; [done|]. split; [done|]. apply process_config.
Qed.

Lemma process_ignores_prior_state_witness :
  df (process engine_ok (query_returns survey) (csv_returns stations)
        (holding params no_crop)).1
  = df (process engine_ok (query_returns survey) (csv_returns stations)
          (init params)).1.
Proof.
  apply (process_ignores_prior_state engine_ok (query_returns survey)
           (csv_returns stations) (init params) (holding params no_crop)).
  - by repeat split.
  - by exists tt, survey.
Defined.

Lemma swap_label_inj c1 c2 x y :
  swap_label c1 c2 x = swap_label c1 c2 y -> x = y.
Proof.
  intros H. rewrite <- (RenameColumns.swap_label_involutive c1 c2 x).
  rewrite H. apply RenameColumns.swap_label_involutive.
Qed.

(** X12. The whole pipeline when nothing goes wrong. Let the load return a
    well-formed frame that has the first key of [columns_to_rename], and
    let the frame with the two labels exchanged have a numeric [Elevation]
    column ([int64] or [float64]), a [Crop_type] column with a string in
    it, a [Field_ID] column with at least one row and no [Weather_station]
    column; let the lookup table arrive well formed, with its two
    columns, its [Weather_station] column being as pandas builds it and its
    [Field_ID] cells of the kind of the frame's ([int64] or strings).
    Then [process] returns normally, and the final frame is the
    loaded one with the labels exchanged, the elevations replaced by
    absolute values, the crops stripped and substituted, every row copied
    once per matching lookup row (once if none), followed by the joined
    [Weather_station] column. The engine is the one created, and the
    collaborators and the logger have been called once each, in this
    order. *)
Theorem process_succeeds {Engine} create query read
    (self : Processor Engine) eng d c1 c2 rest wsd (a s lk fk ws : Series) :
  create (db_path self) = Ok eng ->
  query eng (sql_query self) = Ok d ->
  wf_frame d ->
  columns_to_rename self = (c1, c2) :: rest ->
  c1 ∈ columns d ->
  getitem "Elevation" ((fun c => (swap_label c1 c2 c.1, c.2)) <$> d) = Ok a ->
  numeric a ->
  getitem "Crop_type" ((fun c => (swap_label c1 c2 c.1, c.2)) <$> d) = Ok s ->
  existsb is_str s = true ->
  getitem "Field_ID" ((fun c => (swap_label c1 c2 c.1, c.2)) <$> d) = Ok lk ->
  lk <> [] ->
  "Weather_station" ∉ columns ((fun c => (swap_label c1 c2 c.1, c.2)) <$> d) ->
  read (weather_map_data self) = Ok wsd ->
  wf_frame wsd ->
  getitem "Field_ID" wsd = Ok fk ->
  getitem "Weather_station" wsd = Ok ws ->
  typed ws = true ->
  same_kind lk fk ->
  (process create query read self).2 = Ok tt
  /\ df (process create query read self).1
     = Some (((fun c => (c.1, fanned lk fk c.2))
                <$> setitem "Crop_type"
                      (crop_cell (values_to_rename self) <$> s)
                      (setitem "Elevation" (abs_cell <$> a)
                         ((fun c => (swap_label c1 c2 c.1, c.2)) <$> d)))
             ++ [("Weather_station", joined lk fk ws)])
  /\ engine (process create query read self).1 = Some eng
  /\ trace (process create query read self).1
     = trace self ++ [CallCreateDbEngine (db_path self);
                      CallQueryData (sql_query self);
                      LogInfo "Sucessfully loaded data.";
                      LogInfo (swapped_message c1 c2);
                      CallReadFromWebCSV (weather_map_data self)].
Proof.
  intros Hc Hq Hwf Hctr H1 Ha Hnum Hs Hacc Hlk _ HW Hread Hwsd Hfk Hws _ Hkind.
  pose proof (MergeFacts.wf_frame_lengths wsd _ _ fk ws Hwsd Hfk Hws) as Hlen.
  apply numeric_numbers in Hnum.
  set (d1 := (fun c => (swap_label c1 c2 c.1, c.2)) <$> d) in *.
  rewrite RenameColumns.process_unfold.
  (* the load *)
  unfold ingest_sql_data, bind, attr, emit, lift, set_engine, set_df,
    logger_info, emit, ret. simpl. rewrite Hc. simpl. rewrite Hq. simpl.
  set (s1 := with_trace _ _).
  (* the exchange *)
  destruct (RenameFacts.rename_columns_run s1 c1 c2 rest d Hctr eq_refl)
    as [t [Ht Hrun]].
  destruct (RenameFacts.temp_name_for_fresh (columns d))
    as [t' [Ht' [Hfresh _]]].
  assert (t' = t) as -> by congruence.
  rewrite (RenameColumns.relabel_frame_ext (relabel c1 c2 t)
             (swap_label c1 c2) d) in Hrun.
  2:{ intros n _. apply RenameColumns.relabel_swap. intros ->. done. }
  fold d1 in Hrun. rewrite Hrun. set (s2 := with_df (Some d1) _).
  assert (wf_frame d1) as Hwf1.
  { apply Invariant.wf_frame_relabel; [|done].
    intros x y _ _. apply swap_label_inj. }
  (* the corrections *)
  set (d2 := setitem "Crop_type" (crop_cell (values_to_rename self) <$> s)
               (setitem "Elevation" (abs_cell <$> a) d1)).
  assert (apply_corrections "Crop_type" "Elevation" s2
          = (with_df (Some d2) s2, Ok tt)) as Hrun3.
  { rewrite (ApplyCorrections.apply_corrections_run s2 d1 _ _ eq_refl).
    rewrite Ha. rewrite abs_numbers by done.
    rewrite getitem_setitem_ne by done. rewrite Hs.
    by rewrite str_with_string. }
  assert (wf_frame d2) as Hwf2.
  { destruct (Invariant.apply_corrections_wf s2 d1 "Crop_type" "Elevation"
                eq_refl Hwf1) as (d' & Hd' & Hwf').
    rewrite Hrun3 in Hd'. simpl in Hd'. by injection Hd' as <-. }
  rewrite Hrun3. set (s3 := with_df (Some d2) s2).
  (* the join *)
  assert (columns d2 = columns d1) as Hcols2.
  { unfold d2. rewrite !columns_setitem; [done| |].
    - apply getitem_columns. eauto.
    - rewrite columns_setitem; apply getitem_columns; eauto. }
  assert (getitem "Field_ID" d2 = Ok lk) as Hlk2.
  { unfold d2. by rewrite !getitem_setitem_ne. }
  rewrite (WeatherStationMappingMore.weather_station_mapping_run
             read s3 d2 wsd fk ws eq_refl Hread Hfk Hws).
  rewrite (WeatherStationMappingMore.merge_left_fresh
             d2 "Field_ID" "Weather_station" fk ws lk); try done.
  2:{ by rewrite Hcols2. }
  simpl. split; [done|]. split; [done|]. split; [done|].
  by rewrite <- !app_assoc.
Qed.

Lemma process_succeeds_witness :
  df (process engine_ok (query_returns survey) (csv_returns stations)
        (init params)).1
  = Some [ ("Field_ID", [VNum 1; VNum 2; VNum 5]);
           ("Elevation", [VNum 120; VNum 35; VNum 0]);
           ("Crop_type", [VStr "Maize"; VStr "cassava"; VStr "tea"]);
           ("Annual_yield", [VNum 7; VNum 3; VNum 4]);
           ("Weather_station", [VFloat (float_of_int 0);
                                VFloat (float_of_int 4); VFloat nan]) ].
Proof.
  destruct (process_succeeds engine_ok (query_returns survey)
              (csv_returns stations) (init params) tt survey
              "Annual_yield" "Crop_type" [] stations
              [VNum (-120); VNum 35; VNum 0]
              [VStr "maize "; VStr "cassaval"; VStr " tea"]
              [VNum 1; VNum 2; VNum 5] [VNum 2; VNum 1; VNum 9]
              [VNum 4; VNum 0; VNum 3]) as (_ & Hdf & _).
  - reflexivity.
  - reflexivity.
  - split; [by_compute|]. repeat constructor.
  - reflexivity.
  - by_compute.
  - reflexivity.
  - left. repeat constructor.
  - reflexivity.
  - reflexivity.
  - reflexivity.
  - discriminate.
  - by_compute.
  - reflexivity.
  - split; [by_compute|]. repeat constructor.
  - reflexivity.
  - reflexivity.
  - reflexivity.
  - left. split; repeat constructor.
  - rewrite Hdf. vm_compute. reflexivity.
Defined.

End ProcessMore.

(** ** [initialize_logging] *)

Module LoggingFacts.
Import FieldDataProcessor Logging.

Lemma chosen_level_None s :
  chosen_level s = None <-> upper s = code_points "NONE".
Proof.
  unfold chosen_level.
  destruct (decide (upper s = code_points "DEBUG")) as [Hd|_].
  { split; [done|]. intros Hn. rewrite Hn in Hd. discriminate. }
  destruct (decide (upper s = code_points "INFO")) as [Hi|_].
  { split; [done|]. intros Hn. rewrite Hn in Hi. discriminate. }
  by destruct (decide (upper s = code_points "NONE")).
Qed.

Lemma chosen_level_Some s lvl :
  chosen_level s = Some lvl -> lvl = DEBUG \/ lvl = INFO.
Proof.
  unfold chosen_level. repeat case_decide; intros [= <-]; auto.
Qed.

Lemma handlers_initialize_logging s lg :
  handlers (initialize_logging s lg)
  = match handlers lg with
    | [] => match chosen_level s with
            | None => []
            | Some _ => [console_handler]
            end
    | hs => hs
    end.
Proof.
  unfold initialize_logging. simpl.
  destruct (chosen_level s), (handlers lg); done.
Qed.

(** X13. Handlers are attached at most once. However many objects are
    built and whatever level each asks for, a logger that had handlers
    keeps exactly those, and a logger that had none ends with the one
    console handler, or with none if every object asked for ["NONE"]. *)
Theorem initialize_logging_attaches_once (levels : list string) (lg : Logger) :
  handlers (after_constructions levels lg)
  = match handlers lg with
    | [] => if decide (Forall (fun s => upper s = code_points "NONE") levels)
            then []
            else [console_handler]
    | hs => hs
    end.
Proof.
  unfold after_constructions. revert lg.
  induction levels as [|s levels IH]; intros lg; cbn [foldl].
  - destruct (handlers lg) as [|h hs]; [|done].
    destruct (decide _) as [|Hn]; [done|]. exfalso. apply Hn. constructor.
  - rewrite IH, handlers_initialize_logging.
    destruct (handlers lg) as [|h hs]; [|done].
    destruct (chosen_level s) as [lvl|] eqn:Hs.
    + rewrite decide_False; [done|]. intros H.
      apply Forall_cons in H as [H _]. apply chosen_level_None in H. congruence.
    + apply chosen_level_None in Hs.
      destruct (decide (Forall _ levels)) as [H|H].
      * rewrite decide_True; [done|]. by constructor.
      * rewrite decide_False; [done|]. intros H'.
        apply Forall_cons in H' as [_ H']. done.
Qed.

Lemma disabled_initialize_logging s lg :
  disabled (initialize_logging s lg)
  = match chosen_level s with
    | None => true
    | Some _ => disabled lg
    end.
Proof.
  unfold initialize_logging. simpl.
  destruct (chosen_level s), (handlers lg); done.
Qed.

Lemma disabled_sticky levels lg :
  disabled lg = true -> disabled (after_constructions levels lg) = true.
Proof.
  unfold after_constructions. revert lg.
  induction levels as [|s levels IH]; intros lg H; [done|]. simpl.
  apply IH. rewrite disabled_initialize_logging. by destruct (chosen_level s).
Qed.

(** X14. Switching the logger off is for good. Once one object has been
    built with a level that upper-cases to ["NONE"], the shared logger is
    disabled and stays so whatever levels later objects ask for: no
    message of any object is written any more. *)
Theorem initialize_logging_none_is_final (levels : list string) (lg : Logger)
    (parent_level : nat) (parent_handlers : list Handler) (tr : list event) :
  Exists (fun s => upper s = code_points "NONE") levels ->
  disabled (after_constructions levels lg) = true
  /\ (forall msg, info parent_level parent_handlers msg
                    (after_constructions levels lg) = [])
  /\ written parent_level parent_handlers (after_constructions levels lg) tr
     = [].
Proof.
  intros Hex.
  assert (disabled (after_constructions levels lg) = true) as Hdis.
  { revert lg. induction Hex as [s levels Hs|s levels _ IH]; intros lg.
    - change (after_constructions (s :: levels) lg)
        with (after_constructions levels (initialize_logging s lg)).
      apply disabled_sticky. rewrite disabled_initialize_logging.
      apply chosen_level_None in Hs. by rewrite Hs.
    - apply (IH (initialize_logging s lg)). }
  assert (forall msg, info parent_level parent_handlers msg
                        (after_constructions levels lg) = []) as Hinfo.
  { intros msg. unfold info, isEnabledFor. by rewrite Hdis. }
  split; [done|]. split; [done|].
  unfold written. induction tr as [|ev tr IH]; [done|].
  rewrite fmap_cons. simpl. rewrite IH.
  destruct ev; simpl; try done. by rewrite Hinfo.
Qed.

Lemma initialize_logging_none_is_final_witness :
  info 30 [] "Sucessfully loaded data."
    (after_constructions ["info"; "None"; "DEBUG"] new_logger) = [].
Proof.
  apply (initialize_logging_none_is_final ["info"; "None"; "DEBUG"]
           new_logger 30 [] []).
  apply Exists_cons_tl, Exists_cons_hd. reflexivity.
Defined.

(** The logger once an object has been built with a level other than
    ["NONE"], no object with ["NONE"]. *)
Lemma after_constructions_ready levels lg :
  levels <> [] ->
  Forall (fun s => upper s <> code_points "NONE") levels ->
  handlers lg = [] \/ handlers lg = [console_handler] ->
  disabled lg = false ->
  let lg' := after_constructions levels lg in
  handlers lg' = [console_handler]
  /\ disabled lg' = false
  /\ propagate lg' = false
  /\ (level lg' = DEBUG \/ level lg' = INFO).
Proof.
  unfold after_constructions. intros Hne Hall. revert lg.
  induction Hall as [|s levels Hs Hall IH]; intros lg Hh Hd; [done|].
  simpl.
  destruct (chosen_level s) as [lvl|] eqn:Hlvl.
  2:{ by apply chosen_level_None in Hlvl. }
  assert (handlers (initialize_logging s lg) = [console_handler]
          /\ disabled (initialize_logging s lg) = false
          /\ propagate (initialize_logging s lg) = false
          /\ (level (initialize_logging s lg) = DEBUG
              \/ level (initialize_logging s lg) = INFO)) as Hstep.
  { rewrite handlers_initialize_logging, disabled_initialize_logging, Hlvl.
    split; [by destruct Hh as [-> | ->]|]. split; [done|].
    unfold initialize_logging. rewrite Hlvl. simpl.
    apply chosen_level_Some in Hlvl.
    destruct (handlers lg); simpl; done. }
  destruct levels as [|s' levels']; [exact Hstep|].
  apply IH; [done|by right; apply Hstep|apply Hstep].
Qed.

(** X15. No duplicate lines. Start from a logger without handlers that is
    not disabled (as [getLogger] creates it), and build any number of
    objects, at least one, none with a level that upper-cases to ["NONE"].
    Then every message handed to [logger.info] is written exactly once, by
    the console handler, whatever level was asked for (["ERROR"] silences
    nothing) and whatever handlers and level the ancestors of the logger
    have. *)
Theorem initialize_logging_writes_once (levels : list string) (lg : Logger)
    (parent_level : nat) (parent_handlers : list Handler) :
  levels <> [] ->
  Forall (fun s => upper s <> code_points "NONE") levels ->
  handlers lg = [] ->
  disabled lg = false ->
  forall msg, info parent_level parent_handlers msg
                (after_constructions levels lg)
              = [(console_handler, msg)].
Proof.
  intros Hne Hall Hh Hd msg.
  destruct (after_constructions_ready levels lg Hne Hall (or_introl Hh) Hd)
    as (Hh' & Hd' & Hp' & Hl').
  unfold info, isEnabledFor, getEffectiveLevel, callHandlers.
  rewrite Hd', Hh', Hp'. simpl.
  destruct Hl' as [-> | ->]; reflexivity.
Qed.

Lemma initialize_logging_writes_once_witness :
  info 30 [mkHandler "root.log" 0 None] "Sucessfully loaded data."
    (after_constructions ["ERROR"; "debug"; "Info"] new_logger)
  = [(console_handler, "Sucessfully loaded data.")].
Proof.
  apply (initialize_logging_writes_once ["ERROR"; "debug"; "Info"] new_logger).
  - discriminate.
  - repeat constructor; by_compute.
  - reflexivity.
  - reflexivity.
Defined.

End LoggingFacts.
